(** * EPFO bot backend: the chat pipeline, embedded and verified

    A shallow embedding of the chat orchestration pipeline of the backend
    (app/main.py and the three services under app/services/) together with
    the properties its specification states about it.

    Conventions.
    - A Python [str] is a [string]; every character is a code point below
      256.  The built-in string methods the services use ([strip], [in],
      [startswith], [endswith], [split], [join]) are defined in module
      [PyStr] with the semantics of CPython.
    - A Python exception is a value [Raise msg] of type [result], where [msg]
      is what [str(e)] yields; [try ... except Exception] is a match on it.
    - The remote collaborators (embedding model, vector index, inference
      endpoint, database, clock) are fields of an environment; every request
      sent to one of them is recorded in a trace. *)

From Stdlib Require Import String Ascii List Bool Arith ZArith QArith Lia.
From Stdlib Require Import DecimalString.
Import ListNotations.

Set Warnings "-register-all".

Local Close Scope Q_scope.
Local Open Scope list_scope.
Local Open Scope string_scope.

(* ================================================================== *)
(** ** Python string primitives *)
(* ================================================================== *)

Module PyStr.

(** The newline character. *)
Definition nl : string := String (ascii_of_nat 10) "".

(** [str.isspace] on one character, for code points below 256: TAB, LF, VT,
    FF, CR, the four separators FS GS RS US, SPACE, NEL and NBSP. *)
Definition isspace (c : ascii) : bool :=
  let n := nat_of_ascii c in
  (((9 <=? n) && (n <=? 13)) || ((28 <=? n) && (n <=? 32))
   || (n =? 133) || (n =? 160))%nat.
Arguments isspace : simpl never.

(** [s.lstrip()] *)
Fixpoint lstrip (s : string) : string :=
  match s with
  | "" => ""
  | String c s' => if isspace c then lstrip s' else s
  end.

(** [s.rstrip()] *)
Fixpoint rstrip (s : string) : string :=
  match s with
  | "" => ""
  | String c s' =>
      match rstrip s' with
      | "" => if isspace c then "" else String c ""
      | r => String c r
      end
  end.

(** [s.strip()] *)
Definition strip (s : string) : string := rstrip (lstrip s).

(** [s.startswith(p)] *)
Fixpoint startswith (p s : string) : bool :=
  match p, s with
  | "", _ => true
  | String _ _, "" => false
  | String a p', String b s' => Ascii.eqb a b && startswith p' s'
  end.

(** [sub in s] *)
Fixpoint contains (sub s : string) : bool :=
  startswith sub s ||
  match s with
  | "" => false
  | String _ s' => contains sub s'
  end.

(** [s.endswith(suf)] *)
Fixpoint endswith (suf s : string) : bool :=
  String.eqb suf s ||
  match s with
  | "" => false
  | String _ s' => endswith suf s'
  end.

(** [s.endswith((a, b, ...))] with a tuple of suffixes. *)
Definition endswith_any (sufs : list string) (s : string) : bool :=
  existsb (fun suf => endswith suf s) sufs.

(** [sep.join(parts)] *)
Fixpoint join (sep : string) (parts : list string) : string :=
  match parts with
  | [] => ""
  | [x] => x
  | x :: rest => x ++ sep ++ join sep rest
  end.

(** [s.split(sep)] for a non-empty separator: the pieces between the
    leftmost non-overlapping occurrences of [sep], scanning left to right.
    [skip] counts the characters of an occurrence already recognised that
    are still to be passed over. *)
Fixpoint split_from (sep : string) (skip : nat) (s : string) : list string :=
  match s with
  | "" => [""]
  | String c s' =>
      match skip with
      | S k => split_from sep k s'
      | O =>
          if startswith sep s
          then "" :: split_from sep (String.length sep - 1) s'
          else match split_from sep 0 s' with
               | p :: ps => String c p :: ps
               | [] => [String c ""]
               end
      end
  end.

Definition split (sep s : string) : list string := split_from sep 0 s.

(** [parts[-1]] of a list known to be non-empty ([split] never returns an
    empty list). *)
Definition last_piece (parts : list string) : string := List.last parts "".

(** [parts[:-1]] *)
Definition but_last (parts : list string) : list string := List.removelast parts.

(** [bool(s)]: a string is truthy when it is not empty. *)
Definition truthy (s : string) : bool :=
  match s with "" => false | _ => true end.

(** [s[k:]] *)
Fixpoint drop_chars (k : nat) (s : string) : string :=
  match k, s with
  | O, _ => s
  | S _, "" => ""
  | S k', String _ s' => drop_chars k' s'
  end.

(** [not s[:1].isspace()]: the string does not begin with whitespace. *)
Definition head_ok (s : string) : bool :=
  match s with
  | "" => true
  | String c _ => negb (isspace c)
  end.

(** [s.replace(old, new)] for a non-empty [old]. *)
Definition replace (old new s : string) : string := join new (split old s).

(** [str(n)] for an integer. *)
Definition str_of_int (n : Z) : string := NilZero.string_of_int (Z.to_int n).

End PyStr.

(* ================================================================== *)
(** ** Values, exceptions and effects *)
(* ================================================================== *)

Module Runtime.
Import PyStr.

(** The outcome of a Python call: a value, or an exception whose [str(e)]
    is [msg]. *)
Inductive result (A : Type) : Type :=
| Ok (a : A)
| Raise (msg : string).
Arguments Ok {A} a.
Arguments Raise {A} msg.

(** A decoded JSON document, as [response.json()] and the vector index
    return it. *)
Inductive json : Type :=
| JNull
| JBool (b : bool)
| JNum (n : Z)
| JStr (s : string)
| JList (items : list json)
| JDict (fields : list (string * json)).

(** [bool(v)] *)
Definition json_truthy (v : json) : bool :=
  match v with
  | JNull => false
  | JBool b => b
  | JNum n => negb (n =? 0)%Z
  | JStr s => truthy s
  | JList items => match items with [] => false | _ => true end
  | JDict fields => match fields with [] => false | _ => true end
  end.

(** Lookup of a key in a dict given as its list of items (first binding). *)
Fixpoint assoc {A : Type} (k : string) (kv : list (string * A)) : option A :=
  match kv with
  | [] => None
  | (k', v) :: rest => if String.eqb k k' then Some v else assoc k rest
  end.

(** [type(v).__name__] *)
Definition type_name (v : json) : string :=
  match v with
  | JNull => "NoneType"
  | JBool _ => "bool"
  | JNum _ => "int"
  | JStr _ => "str"
  | JList _ => "list"
  | JDict _ => "dict"
  end.

(** [d.get(k, default)]; an [AttributeError] when [d] is not a dict. *)
Definition json_get (d : json) (k : string) (default : json) : result json :=
  match d with
  | JDict fields =>
      Ok (match assoc k fields with Some v => v | None => default end)
  | _ => Raise ("'" ++ type_name d ++ "' object has no attribute 'get'")
  end.

(** A naive or offset-aware [datetime]; [micros] counts microseconds of UTC
    since the epoch.  An ISO-8601 string stands for the datetime
    [datetime.fromisoformat] parses it to ([isoformat] and [fromisoformat]
    are mutually inverse); it is [aware] when it carries a UTC offset (or a
    trailing Z, which the statistics code rewrites into one). *)
Record datetime : Type := { micros : Z; aware : bool }.

(** A dense embedding vector. *)
Definition Vector : Type := list Q.

(** Decoding parameters and request body of the inference endpoint. *)
Record Payload : Type := {
  inputs : string;
  max_new_tokens : Z;
  temperature : Q;
  top_p : Q;
  return_full_text : bool;
  stop : list string
}.

(** What [requests] does with one POST, [raise_for_status] included. *)
Inductive HttpOutcome : Type :=
| PostTimeout (msg : string)
| PostRequestException (msg : string)
| PostHTTPError (status_code : Z) (msg : string)
| PostJson (response_json : json).

(** One row of the [chat_history] table, the [chat_data] dict of
    [save_chat_to_db]. *)
Record ChatData : Type := {
  user_id : string;
  user_message : string;
  bot_response : string;
  source_context : option string;
  created_at : datetime
}.

(** Calls of service methods and requests to the remote collaborators, in
    the order they happen. *)
Inductive Event : Type :=
| Call_get_final_prompt_for_llm (user_query : string)
| Call_query_huggingface_model (prompt : string)
| Call_save_chat_to_db (uid question answer : string) (context : option string)
| EmbedContent (model content task_type : string)
| IndexQuery (vector : Vector) (top_k : Z) (include_metadata : bool)
| HttpPost (url : string) (authorization : option string) (payload : Payload)
| TableInsert (row : ChatData)
| TableSelect (user_filter : option string).

(** What can go wrong with one insert request.  The request travels to a
    remote database, so whether the row was written and what [execute()]
    reports are two things. *)
Inductive InsertFault : Type :=
| Refused (msg : string)   (* [execute()] raises; the row is not written *)
| Lost (msg : string)      (* the row is written; [execute()] raises all the same *)
| NoData (written : bool). (* [execute()] returns a result whose [data] is empty *)

(** The process state a chat turn can change: the trace of events and the
    contents of the [chat_history] table. *)
Record State : Type := {
  trace : list Event;
  chat_history : list ChatData
}.

(** The service objects and the remote collaborators behind them.  The
    constructor of a service either sets its handle ([index], [client],
    [api_url]) or raises, and a service that could not be constructed is
    constructed again at the next [get_..._service()]: a service without
    its handle is one that cannot be obtained, [get_..._service()] raises
    for it with the constructor's message, and none of its methods is
    called.  The [..._init_error] fields hold the [str(e)] of what the
    constructor caught in that case. *)
Record Env : Type := {
  (* RAGService *)
  index : bool;
  rag_init_error : string;
  embed_content : string -> result Vector;
  index_query : Vector -> result (option (list json));
  (* LLMService *)
  api_url : string;
  llm_init_error : string;
  api_token : string;
  huggingface_model_url : string;
  huggingface_api_token : string;
  http_post : string -> option string -> Payload -> HttpOutcome;
  (* SupabaseService *)
  client : bool;
  supabase_init_error : string;
  insert_fault : ChatData -> option InsertFault;
  select_fault : option string;
  (* datetime.utcnow(), microseconds since the epoch *)
  utcnow : Z
}.

(** Computations: state passing with exceptions. *)
Definition M (A : Type) : Type := State -> result A * State.

Definition ret {A : Type} (a : A) : M A := fun st => (Ok a, st).

Definition raise {A : Type} (msg : string) : M A := fun st => (Raise msg, st).

Definition bind {A B : Type} (c : M A) (k : A -> M B) : M B :=
  fun st =>
    match c st with
    | (Ok a, st') => k a st'
    | (Raise msg, st') => (Raise msg, st')
    end.

(** [try: c  except Exception as e: h(str(e))]; what [c] did to the state
    before it raised stays done. *)
Definition try_except {A : Type} (c : M A) (h : string -> M A) : M A :=
  fun st =>
    match c st with
    | (Ok a, st') => (Ok a, st')
    | (Raise msg, st') => h msg st'
    end.

Definition lift {A : Type} (r : result A) : M A := fun st => (r, st).

Definition emit (ev : Event) : M unit :=
  fun st => (Ok tt, {| trace := trace st ++ [ev]; chat_history := chat_history st |}).

Definition table_append (row : ChatData) : M unit :=
  fun st => (Ok tt, {| trace := trace st; chat_history := chat_history st ++ [row] |}).

Definition table_read : M (list ChatData) :=
  fun st => (Ok (chat_history st), st).

End Runtime.

Import Runtime.

Declare Scope py_scope.
Delimit Scope py_scope with py.
Notation "x <- c ;; k" := (bind c (fun x => k))
  (at level 61, c at next level, right associativity) : py_scope.
Notation "c ;;; k" := (bind c (fun _ => k))
  (at level 61, right associativity) : py_scope.
Local Open Scope py_scope.

(* ================================================================== *)
(** ** app/api_models.py *)
(* ================================================================== *)

Module ApiModels.
Import PyStr.

Record User : Type := { id : string; email : string; user_created_at : string }.

Record ChatResponse : Type := {
  answer : string;
  response_source_context : option string;
  success : bool;
  error_message : option string
}.

(** [ChatRequest]: the field accepts 1 to 1000 characters, the validator
    rejects a question that is only whitespace and returns it stripped.  A
    rejection is a [ValidationError] with one error; [Raise] carries the
    message of that error, not the rendering of the whole exception. *)
Definition ChatRequest (question : string) : result string :=
  if negb (1 <=? String.length question)%nat
  then Raise "String should have at least 1 character"
  else if negb (String.length question <=? 1000)%nat
  then Raise "String should have at most 1000 characters"
  else if truthy (strip question)
  then Ok (strip question)
  else Raise "Value error, Question cannot be empty or just whitespace".

End ApiModels.

(* ================================================================== *)
(** ** app/services/rag_service.py *)
(* ================================================================== *)

Module RAGService.
Import PyStr.

(** [RAGService._build_prompt] *)
Definition _build_prompt (user_query context : string) : string :=
  "You are Providentia, an expert EPFO (Employees' Provident Fund Organisation) assistant. Your role is to provide accurate, helpful, and comprehensive answers about EPF-related matters based on the provided context." ++ nl
  ++ nl
  ++ "Instructions:" ++ nl
  ++ "1. Answer ONLY based on the provided context" ++ nl
  ++ "2. Be precise, concise, and professional" ++ nl
  ++ "3. If the context doesn't contain enough information, clearly state what information is missing" ++ nl
  ++ "4. Always cite relevant sections or rules when possible" ++ nl
  ++ "5. Provide step-by-step guidance for complex procedures" ++ nl
  ++ "6. Use simple language that's easy to understand" ++ nl
  ++ nl
  ++ "Context:" ++ nl
  ++ context ++ nl
  ++ nl
  ++ "Question: " ++ user_query ++ nl
  ++ nl
  ++ "Answer:".

(** [RAGService._create_fallback_prompt] *)
Definition _create_fallback_prompt (user_query : string) : string :=
  "You are Providentia, an expert EPFO (Employees' Provident Fund Organisation) assistant. " ++ nl
  ++ nl
  ++ "Question: " ++ user_query ++ nl
  ++ nl
  ++ "Please provide a helpful response about EPF-related matters. If you need more specific information to give a complete answer, please let the user know what additional details would be helpful." ++ nl
  ++ nl
  ++ "Answer:".

(** [match.get("metadata", {}).get("text")] *)
Definition match_text (m : json) : result json :=
  match json_get m "metadata" (JDict []) with
  | Ok md => json_get md "text" JNull
  | Raise e => Raise e
  end.

(** The loop over the matches: the texts of the matches whose text is
    truthy, in the order of the matches. *)
Fixpoint context_parts_of (matches : list json) : result (list json) :=
  match matches with
  | [] => Ok []
  | m :: rest =>
      match match_text m with
      | Raise e => Raise e
      | Ok t =>
          match context_parts_of rest with
          | Raise e => Raise e
          | Ok parts => Ok (if json_truthy t then t :: parts else parts)
          end
      end
  end.

(** The items of [sep.join(parts)] must all be [str]: the [TypeError]
    names the position of the first item that is not and its type. *)
Fixpoint str_items_from (i : Z) (parts : list json) : result (list string) :=
  match parts with
  | [] => Ok []
  | JStr s :: rest =>
      match str_items_from (i + 1) rest with
      | Ok l => Ok (s :: l)
      | Raise e => Raise e
      end
  | v :: _ =>
      Raise ("sequence item " ++ str_of_int i ++ ": expected str instance, "
             ++ type_name v ++ " found")
  end.

Definition str_items (parts : list json) : result (list string) :=
  str_items_from 0 parts.

(** [get_rag_service()]: the global instance, constructed when there is
    none; [RAGService._initialize_clients] re-raises what it caught. *)
Definition get_rag_service (env : Env) : M unit :=
  if index env then ret tt
  else raise ("RAG service initialization failed: " ++ rag_init_error env).

(** [RAGService.get_final_prompt_for_llm]: the final prompt and the source
    context. *)
Definition get_final_prompt_for_llm (env : Env) (user_query : string)
  : M (string * string) :=
  emit (Call_get_final_prompt_for_llm user_query) ;;;
  try_except
    (if negb (index env) then raise "Pinecone index not initialized" else
     emit (EmbedContent "models/text-embedding-004" user_query "RETRIEVAL_QUERY") ;;;
     search_embedding <- lift (embed_content env user_query) ;;
     emit (IndexQuery search_embedding 8 true) ;;;
     response <- lift (index_query env search_embedding) ;;
     let matches := match response with Some l => l | None => [] end in
     match matches with
     | [] => ret (_create_fallback_prompt user_query, "")
     | _ :: _ =>
         context_parts <- lift (context_parts_of matches) ;;
         match context_parts with
         | [] => ret (_create_fallback_prompt user_query, "")
         | _ :: _ =>
             texts <- lift (str_items context_parts) ;;
             let context := join (nl ++ nl ++ "---" ++ nl ++ nl) texts in
             let source_context := join (nl ++ nl) texts in
             let final_prompt := _build_prompt user_query context in
             ret (final_prompt, source_context)
         end
     end)
    (fun e => raise ("Failed to retrieve context and build prompt: " ++ e)).

End RAGService.

(* ================================================================== *)
(** ** app/services/llm_service.py *)
(* ================================================================== *)

Module LLMService.
Import PyStr.

(** [LLMService._clean_response]:
<<
    cleaned = response.strip()
    if "Answer:" in cleaned:
        cleaned = cleaned.split("Answer:")[-1].strip()
    if cleaned and not cleaned.endswith(('.', '!', '?')):
        sentences = cleaned.split('. ')
        if len(sentences) > 1:
            cleaned = '. '.join(sentences[:-1]) + '.'
    return cleaned
>>
    The two conditional rewrites are named so that they can be reasoned
    about one at a time. *)
Definition remove_prompt_fragments (cleaned : string) : string :=
  if contains "Answer:" cleaned
  then strip (last_piece (split "Answer:" cleaned))
  else cleaned.

Definition remove_incomplete_sentence (cleaned : string) : string :=
  if truthy cleaned && negb (endswith_any ["."; "!"; "?"] cleaned)
  then
    let sentences := split ". " cleaned in
    if (1 <? List.length sentences)%nat
    then join ". " (but_last sentences) ++ "."
    else cleaned
  else cleaned.

Definition _clean_response (response : string) : string :=
  remove_incomplete_sentence (remove_prompt_fragments (strip response)).

Definition empty_response_placeholder : string :=
  "I apologize, but I couldn't generate a response at this time.".

Definition stop_sequences : list string :=
  ["</s>"; "[/INST]"; "Human:"; "Assistant:"; "<|endoftext|>"].

Definition make_payload (prompt : string) (max_new_tokens : Z)
    (temperature top_p : Q) : Payload :=
  {| inputs := prompt;
     max_new_tokens := max_new_tokens;
     temperature := temperature;
     top_p := top_p;
     return_full_text := false;
     stop := stop_sequences |}.

(** The exceptions the body of [get_response] distinguishes. *)
Inductive Exc : Type :=
| Timeout (msg : string)
| HTTPError (status_code : Z) (msg : string)
| RequestException (msg : string)
| OtherException (msg : string).

(** [str.lower] on one character, for code points below 256: the letters
    A to Z and the capital letters of Latin-1 (the multiplication sign
    between them is not one). *)
Definition lower_char (c : ascii) : ascii :=
  let n := nat_of_ascii c in
  if (((65 <=? n) && (n <=? 90))
      || ((192 <=? n) && (n <=? 222) && negb (n =? 215)))%nat
  then ascii_of_nat (n + 32)
  else c.

Fixpoint lower (s : string) : string :=
  match s with
  | "" => ""
  | String c s' => String (lower_char c) (lower s')
  end.

(** The text a successful response carries, [generated_text] of the source
    before it is tested for emptiness. *)
Definition parse_generated_text (response_json : json) : Exc + json :=
  match response_json with
  | JList (first :: _) =>
      match json_get first "generated_text" (JStr "") with
      | Ok v => inr v
      | Raise e => inl (OtherException e)
      end
  | JDict fields =>
      match assoc "error" fields with
      | Some (JStr error_message) =>
          if contains "is currently loading" (lower error_message)
          then inl (OtherException "The model is currently loading. Please try again in a few moments.")
          else if contains "rate limited" (lower error_message)
          then inl (OtherException "Rate limit exceeded. Please try again later.")
          else inl (OtherException ("Hugging Face API error: " ++ error_message))
      | Some _ => inl (OtherException "object has no attribute 'lower'")
      | None =>
          match assoc "generated_text" fields with
          | Some v => inr v
          | None => inr (JStr "")
          end
      end
  | _ => inr (JStr "")
  end.

(** From the decoded response to the returned answer: the placeholder for
    an empty text, the cleaned text otherwise. *)
Definition answer_of_generated_text (generated_text : json) : Exc + string :=
  if negb (json_truthy generated_text) then inr empty_response_placeholder
  else match generated_text with
       | JStr s => inr (_clean_response s)
       | _ => inl (OtherException "object has no attribute 'strip'")
       end.

(** The [try] body of [get_response] after the POST. *)
Definition response_body (outcome : HttpOutcome) : Exc + string :=
  match outcome with
  | PostTimeout msg => inl (Timeout msg)
  | PostRequestException msg => inl (RequestException msg)
  | PostHTTPError status_code msg => inl (HTTPError status_code msg)
  | PostJson response_json =>
      match parse_generated_text response_json with
      | inl e => inl e
      | inr generated_text => answer_of_generated_text generated_text
      end
  end.

(** The four [except] clauses of [get_response]. *)
Definition get_response_handler (model_repo_id : string) (e : Exc) : string :=
  match e with
  | Timeout _ =>
      "The request timed out as the model is taking too long to respond."
  | HTTPError status_code msg =>
      if (status_code =? 401)%Z
      then "Authentication failed. Please check your HUGGINGFACE_API_TOKEN."
      else if (status_code =? 429)%Z
      then "Rate limit exceeded. Please try again later."
      else if (status_code =? 503)%Z
      then "The model is currently loading. Please try again in a few moments."
      else if (status_code =? 404)%Z
      then "Model '" ++ model_repo_id ++ "' not found. Please check the model name."
      else "Hugging Face API error (HTTP " ++ str_of_int status_code ++ "): " ++ msg
  | RequestException msg => "Network error occurred: " ++ msg
  | OtherException _ =>
      "An unexpected error occurred while processing your request."
  end.

Definition models_prefix : string := "https://api-inference.huggingface.co/models/".
Definition hub_prefix : string := "https://huggingface.co/".

(** The clean-up of a model URL into a repository id. *)
Definition model_repo_id_of (model_url : string) : string :=
  if startswith models_prefix model_url then replace models_prefix "" model_url
  else if startswith hub_prefix model_url then replace hub_prefix "" model_url
  else model_url.

(** The session headers set at initialisation: a bearer token when there is
    one. *)
Definition bearer (token : string) : option string :=
  if truthy token then Some ("Bearer " ++ token) else None.

(** [LLMService.get_response] *)
Definition get_response (env : Env) (prompt : string) (max_new_tokens : Z)
    (temperature top_p : Q) : M string :=
  if negb (truthy (api_url env))
  then raise "LLMService is not properly initialized."
  else
    let payload := make_payload prompt max_new_tokens temperature top_p in
    emit (HttpPost (api_url env) (bearer (api_token env)) payload) ;;;
    match response_body (http_post env (api_url env) (bearer (api_token env)) payload) with
    | inr text => ret text
    | inl e =>
        raise (get_response_handler
                 (model_repo_id_of (huggingface_model_url env)) e)
    end.

Definition exc_str (e : Exc) : string :=
  match e with
  | Timeout msg | RequestException msg | OtherException msg => msg
  | HTTPError _ msg => msg
  end.

(** The one-shot request of [query_huggingface_model] when a token or a
    model is overridden: only the two text-carrying shapes are read. *)
Definition override_body (outcome : HttpOutcome) : Exc + string :=
  match outcome with
  | PostTimeout msg => inl (Timeout msg)
  | PostRequestException msg => inl (RequestException msg)
  | PostHTTPError status_code msg => inl (HTTPError status_code msg)
  | PostJson response_json =>
      let generated_text :=
        match response_json with
        | JList (first :: _) =>
            match json_get first "generated_text" (JStr "") with
            | Ok v => inr v
            | Raise e => inl (OtherException e)
            end
        | JDict fields =>
            match assoc "generated_text" fields with
            | Some v => inr v
            | None => inr (JStr "")
            end
        | _ => inr (JStr "")
        end in
      match generated_text with
      | inl e => inl e
      | inr v => answer_of_generated_text v
      end
  end.

Definition opt_truthy (o : option string) : bool :=
  match o with Some s => truthy s | None => false end.

(** [a or b] for an optional override and a configured default. *)
Definition or_else (o : option string) (default : string) : string :=
  match o with
  | Some s => if truthy s then s else default
  | None => default
  end.

(** [LLMService.query_huggingface_model] *)
Definition query_huggingface_model (env : Env) (prompt : string)
    (hf_api_token model_url : option string)
    (max_new_tokens : Z) (temperature top_p : Q) : M string :=
  emit (Call_query_huggingface_model prompt) ;;;
  if opt_truthy hf_api_token || opt_truthy model_url
  then
    let temp_model := model_repo_id_of (or_else model_url (huggingface_model_url env)) in
    let temp_token := or_else hf_api_token (huggingface_api_token env) in
    let temp_url := models_prefix ++ temp_model in
    let payload := make_payload prompt max_new_tokens temperature top_p in
    emit (HttpPost temp_url (bearer temp_token) payload) ;;;
    match override_body (http_post env temp_url (bearer temp_token) payload) with
    | inr text => ret text
    | inl e => raise ("Error querying the model: " ++ exc_str e)
    end
  else get_response env prompt max_new_tokens temperature top_p.

(** [get_llm_service()]: [LLMService()], whose [__init__] runs
    [_initialize_client] until it has succeeded once; a failure is re-raised
    as a [RuntimeError]. *)
Definition get_llm_service (env : Env) : M unit :=
  if truthy (api_url env) then ret tt
  else raise ("LLMService initialization failed: " ++ llm_init_error env).

End LLMService.

(* ================================================================== *)
(** ** app/services/supabase_service.py *)
(* ================================================================== *)

Module SupabaseService.
Import PyStr.

(** [datetime.utcnow()]: a naive datetime. *)
Definition datetime_utcnow (env : Env) : datetime :=
  {| micros := utcnow env; aware := false |}.

Definition microseconds_per_day : Z := 86400000000.

(** [d.replace(hour=0, minute=0, second=0, microsecond=0)] *)
Definition replace_midnight (d : datetime) : datetime :=
  {| micros := micros d - micros d mod microseconds_per_day; aware := aware d |}.

(** [a > b] on datetimes: a [TypeError] between a naive and an aware one. *)
Definition datetime_gt (a b : datetime) : result bool :=
  if Bool.eqb (aware a) (aware b)
  then Ok (micros b <? micros a)%Z
  else Raise "can't compare offset-naive and offset-aware datetimes".

(** [get_supabase_service()]: the global instance, constructed when there
    is none; [SupabaseService._initialize_client] re-raises what it
    caught. *)
Definition get_supabase_service (env : Env) : M unit :=
  if client env then ret tt
  else raise ("Supabase initialization failed: " ++ supabase_init_error env).

(** [SupabaseService.save_chat_to_db].  A result without data is logged as
    a warning and the call returns; an exception of [execute()] is re-raised
    with a prefix, whether or not the row had been written. *)
Definition save_chat_to_db (env : Env) (uid user_query response : string)
    (context : option string) : M unit :=
  emit (Call_save_chat_to_db uid user_query response context) ;;;
  try_except
    (if negb (client env) then raise "Supabase client not initialized" else
     let chat_data :=
       {| user_id := uid;
          user_message := user_query;
          bot_response := response;
          source_context := context;
          created_at := datetime_utcnow env |} in
     emit (TableInsert chat_data) ;;;
     match insert_fault env chat_data with
     | None => table_append chat_data
     | Some (NoData written) =>
         if written then table_append chat_data else ret tt
     | Some (Lost msg) => table_append chat_data ;;; raise msg
     | Some (Refused msg) => raise msg
     end)
    (fun e => raise ("Database operation failed: " ++ e)).

Record Statistics : Type := {
  total_chats : nat;
  total_users : nat;
  recent_chats_24h : nat;
  average_response_length : Q
}.

(** The list comprehension selecting the recent chats. *)
Fixpoint recent_chats_of (midnight : datetime) (chats : list ChatData)
  : result (list ChatData) :=
  match chats with
  | [] => Ok []
  | chat :: rest =>
      match datetime_gt (created_at chat) midnight with
      | Raise e => Raise e
      | Ok keep =>
          match recent_chats_of midnight rest with
          | Raise e => Raise e
          | Ok l => Ok (if keep then chat :: l else l)
          end
      end
  end.

Definition sum_response_lengths (chats : list ChatData) : nat :=
  list_sum (map (fun chat => String.length (bot_response chat)) chats).

(** [SupabaseService.get_chat_statistics] *)
Definition get_chat_statistics (env : Env) (uid : option string)
  : M Statistics :=
  try_except
    (if negb (client env) then raise "Supabase client not initialized" else
     let user_filter :=
       match uid with
       | Some u => if truthy u then Some u else None
       | None => None
       end in
     emit (TableSelect user_filter) ;;;
     match select_fault env with
     | Some msg => raise msg
     | None =>
         rows <- table_read ;;
         let chats :=
           match user_filter with
           | Some u => filter (fun chat => String.eqb (user_id chat) u) rows
           | None => rows
           end in
         let total := List.length chats in
         let users := List.length (nodup string_dec (map user_id chats)) in
         recent_chats <-
           lift (recent_chats_of (replace_midnight (datetime_utcnow env)) chats) ;;
         ret {| total_chats := total;
                total_users := users;
                recent_chats_24h := List.length recent_chats;
                average_response_length :=
                  if (0 <? total)%nat
                  then (inject_Z (Z.of_nat (sum_response_lengths chats))
                        / inject_Z (Z.of_nat total))%Q
                  else 0%Q |}
     end)
    (fun e => raise ("Database operation failed: " ++ e)).

End SupabaseService.

(* ================================================================== *)
(** ** app/main.py: the orchestrator *)
(* ================================================================== *)

Module Main.
Import PyStr ApiModels.

Definition technical_difficulties : string :=
  "I apologize, but I'm currently experiencing technical difficulties. Please try again later.".

Definition system_error_marker : string :=
  "System Error: Unable to process request".

Definition processing_error_apology : string :=
  "I apologize, but I encountered an error while processing your request. Please try again.".

(** The body of the [try] of each step: the service is obtained, then its
    method is called. *)
Definition rag_stage (env : Env) (user_query : string) : M (string * string) :=
  RAGService.get_rag_service env ;;;
  RAGService.get_final_prompt_for_llm env user_query.

Definition llm_stage (env : Env) (final_prompt : string) : M string :=
  LLMService.get_llm_service env ;;;
  LLMService.query_huggingface_model env final_prompt None None
    512 (7 # 10)%Q (95 # 100)%Q.

Definition save_stage (env : Env) (current_user : User)
    (user_query response context : string) : M unit :=
  SupabaseService.get_supabase_service env ;;;
  SupabaseService.save_chat_to_db env (id current_user) user_query
    response (Some context).

(** Step 1: context retrieval and prompt building, with the fallback to the
    bare question. *)
Definition step_rag (env : Env) (user_query : string) : M (string * string) :=
  try_except (rag_stage env user_query) (fun _ => ret (user_query, "")).

(** Step 2: the model, with the fixed apology. *)
Definition step_llm (env : Env) (final_prompt : string) : M string :=
  try_except (llm_stage env final_prompt) (fun _ => ret technical_difficulties).

(** Step 3: the save, whose failure is only logged. *)
Definition step_save (env : Env) (current_user : User)
    (user_query response context : string) : M unit :=
  try_except (save_stage env current_user user_query response context)
    (fun _ => ret tt).

(** The body of the outer [try] of [chat]. *)
Definition chat_body (env : Env) (current_user : User) (user_query : string)
  : M ChatResponse :=
  prompt_and_context <- step_rag env user_query ;;
  let final_prompt := fst prompt_and_context in
  let context := snd prompt_and_context in
  response <- step_llm env final_prompt ;;
  step_save env current_user user_query response context ;;;
  ret {| answer := response;
         response_source_context := Some context;
         success := true;
         error_message := None |}.

(** The [/chat] endpoint, for an admitted request and an authenticated
    user. *)
Definition chat (env : Env) (current_user : User) (user_query : string)
  : M ChatResponse :=
  try_except
    (chat_body env current_user user_query)
    (fun e =>
       try_except
         (save_stage env current_user user_query system_error_marker "")
         (fun _ => ret tt) ;;;
       ret {| answer := processing_error_apology;
              response_source_context := Some "";
              success := false;
              error_message := Some e |}).

End Main.

(* ================================================================== *)
(** ** Observations on traces and stores *)
(* ================================================================== *)

Module Observe.

(** The prompts the generation client was called with, in order. *)
Definition model_calls (tr : list Event) : list string :=
  flat_map (fun ev => match ev with
                      | Call_query_huggingface_model prompt => [prompt]
                      | _ => []
                      end) tr.

(** The interaction writes attempted, in order: the arguments of each call
    of [save_chat_to_db]. *)
Definition save_calls (tr : list Event)
  : list (string * string * string * option string) :=
  flat_map (fun ev => match ev with
                      | Call_save_chat_to_db uid question answer context =>
                          [(uid, question, answer, context)]
                      | _ => []
                      end) tr.

(** The rows sent to the table in insert requests, in order. *)
Definition insert_requests (tr : list Event) : list ChatData :=
  flat_map (fun ev => match ev with
                      | TableInsert row => [row]
                      | _ => []
                      end) tr.

(** The same services with another database behind them. *)
Definition with_store (env : Env) (client' : bool)
    (insert_fault' : ChatData -> option InsertFault)
    (select_fault' : option string) : Env :=
  {| index := index env;
     rag_init_error := rag_init_error env;
     embed_content := embed_content env;
     index_query := index_query env;
     api_url := api_url env;
     llm_init_error := llm_init_error env;
     api_token := api_token env;
     huggingface_model_url := huggingface_model_url env;
     huggingface_api_token := huggingface_api_token env;
     http_post := http_post env;
     client := client';
     supabase_init_error := supabase_init_error env;
     insert_fault := insert_fault';
     select_fault := select_fault';
     utcnow := utcnow env |}.

(** The same services and database read at another time. *)
Definition at_time (env : Env) (now : Z) : Env :=
  {| index := index env;
     rag_init_error := rag_init_error env;
     embed_content := embed_content env;
     index_query := index_query env;
     api_url := api_url env;
     llm_init_error := llm_init_error env;
     api_token := api_token env;
     huggingface_model_url := huggingface_model_url env;
     huggingface_api_token := huggingface_api_token env;
     http_post := http_post env;
     client := client env;
     supabase_init_error := supabase_init_error env;
     insert_fault := insert_fault env;
     select_fault := select_fault env;
     utcnow := now |}.

(** The rows a statistics call is scoped to. *)
Definition scoped (uid : option string) (rows : list ChatData)
  : list ChatData :=
  match uid with
  | Some u =>
      if PyStr.truthy u
      then filter (fun chat => String.eqb (user_id chat) u) rows
      else rows
  | None => rows
  end.

(** 00:00 UTC of the day [now] falls in. *)
Definition midnight_of (now : Z) : Z := (now - now mod 86400000000)%Z.

(** The chats a timestamp filter keeps. *)
Definition stamped_after (bound : Z) (chats : list ChatData) : list ChatData :=
  filter (fun chat => (bound <? micros (created_at chat))%Z) chats.

(** The chats stamped in the closed interval from [from] to [to]. *)
Definition stamped_between (from to : Z) (chats : list ChatData)
  : list ChatData :=
  filter (fun chat => ((from <=? micros (created_at chat))
                       && (micros (created_at chat) <=? to))%Z) chats.

(** A list of events that holds no call of the generation client and no
    interaction write. *)
Definition silent (evs : list Event) : Prop :=
  model_calls evs = [] /\ save_calls evs = [].

(** A computation that only appends to the trace, events satisfying [P]. *)
Definition appends {A : Type} (c : M A) (P : list Event -> Prop) : Prop :=
  forall st, exists evs, trace (snd (c st)) = (trace st ++ evs)%list /\ P evs.


End Observe.

(* ================================================================== *)
(** ** Sample deployments *)
(* ================================================================== *)

Module Samples.
Import PyStr ApiModels Observe.

Definition fresh : State := {| trace := []; chat_history := [] |}.

Definition alice : User :=
  {| id := "user-1"; email := "alice@example.org";
     user_created_at := "2024-01-01T00:00:00" |}.

(** A match of the vector index carrying a passage text. *)
Definition passage (text : string) : json :=
  JDict [("id", JStr "chunk"); ("score", JNum 1);
         ("metadata", JDict [("source", JStr "epf-act"); ("text", JStr text)])].

(** A match without text in its metadata. *)
Definition bare_match : json :=
  JDict [("id", JStr "chunk"); ("metadata", JDict [("source", JStr "epf-act")])].

(** 2024-05-01 12:00:00 UTC, in microseconds since the epoch. *)
Definition noon : Z := 1714564800000000.

(** 2024-05-01 00:00:00 UTC. *)
Definition midnight : Z := 1714521600000000.

(** Every collaborator up: the index returns [matches], the model answers
    with a fixed text, the table accepts rows. *)
Definition healthy (matches : list json) : Env :=
  {| index := true;
     rag_init_error := "";
     embed_content := fun _ => Ok [(1 # 2)%Q; (1 # 4)%Q];
     index_query := fun _ => Ok (Some matches);
     api_url := "https://api-inference.huggingface.co/models/org/epfo-model";
     llm_init_error := "";
     api_token := "hf_token";
     huggingface_model_url := "org/epfo-model";
     huggingface_api_token := "hf_token";
     http_post := fun _ _ _ =>
       PostJson (JList [JDict [("generated_text",
                                JStr "EPF is a retirement savings scheme.")]]);
     client := true;
     supabase_init_error := "";
     insert_fault := fun _ => None;
     select_fault := None;
     utcnow := noon |}.

Definition two_passages : list json :=
  [passage "EPF is a fund."; passage "See Section 69."].

(** The embedding call fails. *)
Definition retrieval_down : Env :=
  {| index := true;
     rag_init_error := "";
     embed_content := fun _ => Raise "403 API key not valid";
     index_query := fun _ => Ok (Some two_passages);
     api_url := api_url (healthy []);
     llm_init_error := "";
     api_token := api_token (healthy []);
     huggingface_model_url := huggingface_model_url (healthy []);
     huggingface_api_token := huggingface_api_token (healthy []);
     http_post := http_post (healthy []);
     client := true;
     supabase_init_error := "";
     insert_fault := fun _ => None;
     select_fault := None;
     utcnow := noon |}.

(** The inference endpoint times out. *)
Definition generation_timeout : Env :=
  {| index := true;
     rag_init_error := "";
     embed_content := embed_content (healthy two_passages);
     index_query := index_query (healthy two_passages);
     api_url := api_url (healthy []);
     llm_init_error := "";
     api_token := api_token (healthy []);
     huggingface_model_url := huggingface_model_url (healthy []);
     huggingface_api_token := huggingface_api_token (healthy []);
     http_post := fun _ _ _ => PostTimeout "Read timed out. (read timeout=30)";
     client := true;
     supabase_init_error := "";
     insert_fault := fun _ => None;
     select_fault := None;
     utcnow := noon |}.

(** The database refuses every insert. *)
Definition store_down : Env :=
  with_store (healthy two_passages) true
    (fun _ => Some (Refused "connection refused")) (Some "connection refused").

(** No database can be reached: the store service cannot be constructed. *)
Definition store_unbuilt : Env :=
  with_store (healthy two_passages) false (fun _ => None) None.

(** No model is configured (the default settings): the LLM service cannot
    be constructed. *)
Definition model_unconfigured : Env :=
  {| index := true;
     rag_init_error := "";
     embed_content := embed_content (healthy two_passages);
     index_query := index_query (healthy two_passages);
     api_url := "";
     llm_init_error :=
       "HUGGINGFACE_MODEL_URL must be set to your actual model repo ID "
       ++ "(e.g., 'monis-codes/epfo-chatbot-mistral-7b-4bit')";
     api_token := "";
     huggingface_model_url := "";
     huggingface_api_token := "";
     http_post := http_post (healthy []);
     client := true;
     supabase_init_error := "";
     insert_fault := fun _ => None;
     select_fault := None;
     utcnow := noon |}.

(** A table holding [rows] and nothing traced yet. *)
Definition stored (rows : list ChatData) : State :=
  {| trace := []; chat_history := rows |}.

Definition hour : Z := 3600000000.

Definition row_at (uid : string) (t : Z) : ChatData :=
  {| user_id := uid;
     user_message := "What is EPF?";
     bot_response := "EPF is a retirement savings scheme.";
     source_context := Some "";
     created_at := {| micros := t; aware := false |} |}.

End Samples.

(* ================================================================== *)
(** ** app/core/config.py *)
(* ================================================================== *)

Module Config.
Import PyStr.

(** [Settings.parse_cors_origins]:
<<
    if not v:
        return ["*"]
    return [origin.strip() for origin in v.split(',') if origin.strip()]
>> *)
Definition parse_cors_origins (v : string) : list string :=
  if negb (truthy v) then ["*"]
  else map strip (filter (fun origin => truthy (strip origin)) (split "," v)).

End Config.

(* ================================================================== *)
(** ** Initialisation and connection tests of the services *)
(* ================================================================== *)

Module Lifecycle.
Import PyStr.

(** What [LLMService._initialize_client] stores on the service. *)
Record LLMConfig : Type := {
  cfg_model_repo_id : string;
  cfg_api_token : string;
  cfg_api_url : string;
  cfg_authorization : option string
}.

(** [LLMService._initialize_client], from the two settings it reads: the
    repository id cleaned of a URL prefix, validated, and the endpoint
    built from it; a failure is re-raised as a [RuntimeError]. *)
Definition _initialize_client (huggingface_model_url huggingface_api_token : string)
  : result LLMConfig :=
  let model_repo_id := LLMService.model_repo_id_of huggingface_model_url in
  if negb (truthy model_repo_id)
     || String.eqb model_repo_id "your_model_name_here"
  then Raise ("LLMService initialization failed: "
              ++ "HUGGINGFACE_MODEL_URL must be set to your actual model repo ID "
              ++ "(e.g., 'monis-codes/epfo-chatbot-mistral-7b-4bit')")
  else Ok {| cfg_model_repo_id := model_repo_id;
             cfg_api_token := huggingface_api_token;
             cfg_api_url := LLMService.models_prefix ++ model_repo_id;
             cfg_authorization := LLMService.bearer huggingface_api_token |}.

(** [LLMService.test_connection]:
<<
    try:
        response = self.get_response("Hello, this is a test message.")
        return bool(response and len(response.strip()) > 0)
    except Exception as e:
        return False
>> *)
Definition llm_test_connection (env : Env) : M bool :=
  try_except
    (response <-
       LLMService.get_response env "Hello, this is a test message."
         512 (7 # 10)%Q (95 # 100)%Q ;;
     ret (truthy response && (0 <? String.length (strip response))%nat))
    (fun _ => ret false).

(** [SupabaseService.test_connection]: a one-row select on the table. *)
Definition supabase_test_connection (env : Env) : M bool :=
  try_except
    (if negb (client env) then ret false else
     emit (TableSelect None) ;;;
     match select_fault env with
     | Some msg => raise msg
     | None => ret true
     end)
    (fun _ => ret false).

End Lifecycle.

(* ================================================================== *)
(** ** app/main.py: the health endpoint *)
(* ================================================================== *)

Module Health.
Import PyStr Lifecycle.

(** [HealthResponse]; [timestamp] is the instant whose [isoformat] text the
    response carries (the text itself is not modelled, as for
    [created_at]); the [details] and [error] keywords the endpoint passes
    are not fields of the model and are dropped by it. *)
Record HealthResponse : Type := {
  status : string;
  version : string;
  timestamp : datetime
}.

(** The overall status from the per-service flags: [all], then [any]. *)
Definition overall_status (services_status : list (string * bool)) : string :=
  if forallb snd services_status then "healthy"
  else if existsb snd services_status then "degraded"
  else "unhealthy".

(** [health_check]: each service is probed under its own [try]; the RAG
    service counts as up when it could be constructed. *)
Definition health_check (env : Env) (app_version : string) : M HealthResponse :=
  try_except
    (supabase <-
       try_except
         (SupabaseService.get_supabase_service env ;;; supabase_test_connection env)
         (fun _ => ret false) ;;
     llm <-
       try_except
         (LLMService.get_llm_service env ;;; llm_test_connection env)
         (fun _ => ret false) ;;
     rag <-
       try_except
         (RAGService.get_rag_service env ;;; ret true)
         (fun _ => ret false) ;;
     let services_status := [("supabase", supabase); ("llm", llm); ("rag", rag)] in
     ret {| status := overall_status services_status;
            version := app_version;
            timestamp := SupabaseService.datetime_utcnow env |})
    (fun _ =>
       ret {| status := "unhealthy";
              version := app_version;
              timestamp := SupabaseService.datetime_utcnow env |}).

End Health.

(* ================================================================== *)
(** ** Further observations *)
(* ================================================================== *)

Module Requests.

(** The POST requests sent to the inference endpoint, in order. *)
Definition posts (tr : list Event) : list (string * option string * Payload) :=
  flat_map (fun ev => match ev with
                      | HttpPost url authorization payload =>
                          [(url, authorization, payload)]
                      | _ => []
                      end) tr.

(** The requests sent to the embedding model and to the vector index. *)
Definition retrieval_requests (tr : list Event) : list Event :=
  filter (fun ev => match ev with
                    | EmbedContent _ _ _ | IndexQuery _ _ _ => true
                    | _ => false
                    end) tr.

(** The text of a match when it is usable: a non-empty string. *)
Definition usable_text (m : json) : option string :=
  match RAGService.match_text m with
  | Ok (JStr t) => if PyStr.truthy t then Some t else None
  | _ => None
  end.

(** The usable texts of a list of matches, in their order. *)
Fixpoint usable_texts (matches : list json) : list string :=
  match matches with
  | [] => []
  | m :: rest =>
      match usable_text m with
      | Some t => t :: usable_texts rest
      | None => usable_texts rest
      end
  end.

(** A match the retrieval loop accepts: a dict whose metadata, when there
    is one, is a dict whose text, when truthy, is a string. *)
Definition well_formed_match (m : json) : Prop :=
  exists t, RAGService.match_text m = Ok t
            /\ (json_truthy t = false \/ exists s, t = JStr s).

(** The same deployment with an inference endpoint that answers every
    request with [outcome]. *)
Definition with_response (env : Env) (outcome : HttpOutcome) : Env :=
  {| index := index env;
     rag_init_error := rag_init_error env;
     embed_content := embed_content env;
     index_query := index_query env;
     api_url := api_url env;
     llm_init_error := llm_init_error env;
     api_token := api_token env;
     huggingface_model_url := huggingface_model_url env;
     huggingface_api_token := huggingface_api_token env;
     http_post := fun _ _ _ => outcome;
     client := client env;
     supabase_init_error := supabase_init_error env;
     insert_fault := insert_fault env;
     select_fault := select_fault env;
     utcnow := utcnow env |}.

(** A computation that leaves the table as it found it. *)
Definition keeps_table {A : Type} (c : M A) : Prop :=
  forall st, chat_history (snd (c st)) = chat_history st.

(** A computation that sends nothing to the inference endpoint. *)
Definition no_posts (evs : list Event) : Prop := posts evs = [].

(** Events that hold no request to the embedding model or the index. *)
Definition no_retrieval (evs : list Event) : Prop := retrieval_requests evs = [].

End Requests.

(* ================================================================== *)
(** * Properties *)
(* ================================================================== *)

(** ** Strings *)

Module PyStrFacts.
Import PyStr.

Lemma append_assoc (a b c : string) : (a ++ b) ++ c = a ++ (b ++ c).
Proof. induction a as [|x a IH]; simpl; [reflexivity | now rewrite IH]. Qed.

Lemma append_empty_r (a : string) : a ++ "" = a.
Proof. induction a as [|x a IH]; simpl; [reflexivity | now rewrite IH]. Qed.

Lemma startswith_append (p r : string) : startswith p (p ++ r) = true.
Proof.
  induction p as [|a p IH]; simpl; [reflexivity|].
  now rewrite Ascii.eqb_refl, IH.
Qed.

Lemma startswith_inv (p s : string) :
  startswith p s = true -> exists r, s = p ++ r.
Proof.
  revert s; induction p as [|a p IH]; intros s H.
  - now exists s.
  - destruct s as [|b s]; simpl in H; [discriminate|].
    apply andb_true_iff in H as [Hab Hps].
    apply Ascii.eqb_eq in Hab; subst b.
    destruct (IH _ Hps) as [r ->]. now exists r.
Qed.

Lemma contains_startswith (sub s : string) :
  startswith sub s = true -> contains sub s = true.
Proof. destruct s; cbn [contains]; intros ->; reflexivity. Qed.

Lemma contains_append (sub pre post : string) :
  contains sub (pre ++ sub ++ post) = true.
Proof.
  induction pre as [|c pre IH].
  - cbn [append]. apply contains_startswith, startswith_append.
  - cbn [append contains]. rewrite IH. apply orb_true_r.
Qed.

Lemma contains_inv (sub s : string) :
  contains sub s = true -> exists pre post, s = pre ++ sub ++ post.
Proof.
  induction s as [|c s IH]; cbn [contains]; intros H.
  - rewrite orb_false_r in H. apply startswith_inv in H as [r Hr].
    now exists "", r.
  - apply orb_true_iff in H as [H|H].
    + apply startswith_inv in H as [r ->]. now exists "", r.
    + destruct (IH H) as (pre & post & ->). now exists (String c pre), post.
Qed.

(** A string that has no occurrence of [sub] has none in any of its
    factors. *)
Lemma contains_factor (sub pre t post : string) :
  contains sub (pre ++ t ++ post) = false -> contains sub t = false.
Proof.
  intros H. destruct (contains sub t) eqn:E; [|reflexivity].
  apply contains_inv in E as (a & b & ->).
  rewrite <- H. symmetry.
  replace (pre ++ (a ++ sub ++ b) ++ post)
    with ((pre ++ a) ++ sub ++ (b ++ post))
    by now rewrite !append_assoc.
  apply contains_append.
Qed.

Lemma endswith_append (suf a : string) : endswith suf (a ++ suf) = true.
Proof.
  induction a as [|c a IH]; simpl.
  - destruct suf; simpl; rewrite ?Ascii.eqb_refl, ?String.eqb_refl; reflexivity.
  - rewrite IH. apply orb_true_r.
Qed.

(** *** strip *)

Lemma lstrip_factor (s : string) : exists w, s = w ++ lstrip s.
Proof.
  induction s as [|c s [w IH]]; simpl.
  - now exists "".
  - destruct (isspace c).
    + exists (String c w). simpl. now rewrite <- IH.
    + now exists "".
Qed.

Lemma rstrip_factor (s : string) : exists w, s = rstrip s ++ w.
Proof.
  induction s as [|c s [w IH]]; simpl.
  - now exists "".
  - destruct (rstrip s) as [|d r] eqn:E.
    + destruct (isspace c).
      * now exists (String c s).
      * exists s. reflexivity.
    + exists w. simpl in *. now rewrite <- IH.
Qed.

Lemma lstrip_head_ok (s : string) : head_ok (lstrip s) = true.
Proof.
  induction s as [|c s IH]; simpl; [reflexivity|].
  destruct (isspace c) eqn:E; [assumption|]. simpl. now rewrite E.
Qed.

Lemma lstrip_fix (s : string) : head_ok s = true -> lstrip s = s.
Proof.
  destruct s as [|c s]; simpl; [reflexivity|].
  now destruct (isspace c).
Qed.

Lemma rstrip_head_ok (s : string) : head_ok s = true -> head_ok (rstrip s) = true.
Proof.
  destruct s as [|c s]; simpl; [reflexivity|]. intros H.
  destruct (rstrip s); [|exact H].
  destruct (isspace c) eqn:E; [discriminate|]. simpl. now rewrite E.
Qed.

Lemma rstrip_idem (s : string) : rstrip (rstrip s) = rstrip s.
Proof.
  induction s as [|c s IH]; simpl; [reflexivity|].
  destruct (rstrip s) as [|d r] eqn:E.
  - destruct (isspace c) eqn:Ec; simpl; [reflexivity|]. now rewrite Ec.
  - change (rstrip (String c (String d r)))
      with (match rstrip (String d r) with
            | "" => if isspace c then "" else String c ""
            | x => String c x
            end).
    now rewrite IH.
Qed.

Lemma strip_idem (s : string) : strip (strip s) = strip s.
Proof.
  unfold strip.
  rewrite (lstrip_fix (rstrip (lstrip s))).
  - apply rstrip_idem.
  - apply rstrip_head_ok, lstrip_head_ok.
Qed.

Lemma strip_fix_inv (s : string) :
  strip s = s -> head_ok s = true /\ rstrip s = s.
Proof.
  intros H. split.
  - rewrite <- H. apply rstrip_head_ok, lstrip_head_ok.
  - rewrite <- H at 1. unfold strip. rewrite rstrip_idem. exact H.
Qed.

Lemma strip_fix (s : string) :
  head_ok s = true -> rstrip s = s -> strip s = s.
Proof. intros H1 H2. unfold strip. now rewrite lstrip_fix. Qed.

Lemma strip_factor (s : string) : exists pre post, s = pre ++ strip s ++ post.
Proof.
  destruct (lstrip_factor s) as [w Hw].
  destruct (rstrip_factor (lstrip s)) as [v Hv].
  exists w, v. unfold strip. now rewrite <- Hv.
Qed.

Lemma rstrip_append_char (a : string) (c : ascii) :
  isspace c = false -> rstrip (a ++ String c "") = a ++ String c "".
Proof.
  intros Hc. induction a as [|x a IH]; simpl.
  - now rewrite Hc.
  - rewrite IH. destruct a; reflexivity.
Qed.

Lemma head_ok_append (a b c : string) :
  head_ok (a ++ b) = true -> head_ok c = true -> head_ok (a ++ c) = true.
Proof. destruct a; simpl; auto. Qed.

(** *** split and join *)

Lemma split_from_nonempty (sep : string) (k : nat) (s : string) :
  split_from sep k s <> [].
Proof.
  revert k; induction s as [|c s IH]; intros k; cbn [split_from]; [discriminate|].
  destruct k; [|apply IH].
  destruct (startswith sep (String c s)); [discriminate|].
  destruct (split_from sep 0 s); discriminate.
Qed.

Lemma join_cons (sep x : string) (l : list string) :
  l <> [] -> join sep (x :: l) = x ++ sep ++ join sep l.
Proof. destruct l; [congruence | reflexivity]. Qed.

Lemma drop_chars_append (p r : string) : drop_chars (String.length p) (p ++ r) = r.
Proof. induction p as [|a p IH]; simpl; [now destruct r | exact IH]. Qed.

(** Joining the pieces of a split with the separator gives the string
    back. *)
Lemma join_split_from (sep : string) (k : nat) (s : string) :
  sep <> "" -> join sep (split_from sep k s) = drop_chars k s.
Proof.
  intros Hsep. revert k; induction s as [|c s IH]; intros k.
  - now destruct k.
  - cbn [split_from]. destruct k as [|k]; [|apply IH].
    destruct (startswith sep (String c s)) eqn:E.
    + rewrite join_cons by apply split_from_nonempty.
      rewrite IH. cbn [append drop_chars].
      apply startswith_inv in E as [r Hr].
      destruct sep as [|a sep]; [congruence|].
      cbn [append] in Hr. injection Hr as -> ->.
      cbn [String.length].
      replace (S (String.length sep) - 1)%nat with (String.length sep) by lia.
      now rewrite drop_chars_append.
    + specialize (IH 0). cbn [drop_chars] in *.
      destruct (split_from sep 0 s) as [|p ps] eqn:Es.
      * now apply split_from_nonempty in Es.
      * destruct ps as [|q ps].
        -- cbn [join] in *. now rewrite IH.
        -- rewrite join_cons in * by discriminate.
           cbn [append]. now rewrite IH.
Qed.

Lemma join_split (sep s : string) : sep <> "" -> join sep (split sep s) = s.
Proof. intros H. unfold split. now rewrite join_split_from. Qed.

(** The last piece of a split holds no occurrence of the separator. *)
Lemma last_split_from_clean (sep : string) (k : nat) (s : string) :
  sep <> "" -> contains sep (last_piece (split_from sep k s)) = false.
Proof.
  intros Hsep. unfold last_piece.
  revert k; induction s as [|c s IH]; intros k.
  - destruct k; cbn; destruct sep; [congruence | reflexivity | congruence | reflexivity].
  - cbn [split_from]. destruct k as [|k]; [|apply IH].
    destruct (startswith sep (String c s)) eqn:E.
    + pose proof (split_from_nonempty sep (String.length sep - 1) s) as Hne.
      destruct (split_from sep (String.length sep - 1) s) as [|p ps] eqn:Es;
        [congruence|].
      change (last ("" :: p :: ps) "") with (last (p :: ps) "").
      rewrite <- Es. apply IH.
    + pose proof (join_split_from sep 0 s Hsep) as Hj.
      specialize (IH 0).
      destruct (split_from sep 0 s) as [|p ps] eqn:Es.
      * now apply split_from_nonempty in Es.
      * destruct ps as [|q ps].
        -- cbn [last join drop_chars] in *. subst p.
           cbn [contains]. now rewrite E, IH.
        -- exact IH.
Qed.

Lemma join_but_last (sep : string) (l : list string) :
  (1 < List.length l)%nat ->
  join sep l = join sep (but_last l) ++ sep ++ last_piece l.
Proof.
  unfold but_last, last_piece.
  induction l as [|x l IH]; cbn [List.length]; intros H; [lia|].
  destruct l as [|y l]; [cbn in H; lia|].
  destruct l as [|z l].
  - reflexivity.
  - rewrite join_cons by discriminate.
    rewrite IH by (cbn; lia).
    change (removelast (x :: y :: z :: l)) with (x :: removelast (y :: z :: l)).
    change (last (x :: y :: z :: l) "") with (last (y :: z :: l) "").
    rewrite join_cons.
    + now rewrite !append_assoc.
    + destruct l; discriminate.
Qed.

End PyStrFacts.

(** ** Response post-processing *)

Module CleanFacts.
Import PyStr PyStrFacts LLMService.

Lemma sep_answer_nonempty : "Answer:" <> "".
Proof. discriminate. Qed.

Lemma sep_sentence_nonempty : ". " <> "".
Proof. discriminate. Qed.

(** After the first two steps the text is stripped. *)
Lemma remove_prompt_fragments_stripped (s : string) :
  strip (remove_prompt_fragments (strip s)) = remove_prompt_fragments (strip s).
Proof.
  unfold remove_prompt_fragments.
  destruct (contains "Answer:" (strip s)); apply strip_idem.
Qed.

(** After the first two steps the text holds no "Answer:". *)
Lemma remove_prompt_fragments_clean (s : string) :
  contains "Answer:" (remove_prompt_fragments s) = false.
Proof.
  unfold remove_prompt_fragments.
  destruct (contains "Answer:" s) eqn:E; [|exact E].
  destruct (strip_factor (last_piece (split "Answer:" s))) as (pre & post & H).
  apply (contains_factor _ pre _ post). rewrite <- H.
  apply last_split_from_clean, sep_answer_nonempty.
Qed.

(** The shape of the third step: the text stays, or it loses what follows
    the last ". " and ends in a full stop. *)
Lemma remove_incomplete_sentence_cases (u : string) :
  remove_incomplete_sentence u = u \/
  exists kept dropped,
    u = kept ++ ". " ++ dropped /\
    remove_incomplete_sentence u = kept ++ ".".
Proof.
  unfold remove_incomplete_sentence.
  destruct (truthy u && negb (endswith_any ["."; "!"; "?"] u)); [|now left].
  cbv zeta.
  destruct (1 <? List.length (split ". " u))%nat eqn:E; [|now left].
  right. apply Nat.ltb_lt in E.
  exists (join ". " (but_last (split ". " u))), (last_piece (split ". " u)).
  split; [|reflexivity].
  rewrite <- join_but_last by exact E.
  symmetry. apply join_split, sep_sentence_nonempty.
Qed.

Lemma endswith_any_full_stop (a : string) :
  endswith_any ["."; "!"; "?"] (a ++ ".") = true.
Proof. unfold endswith_any. cbn [existsb]. now rewrite endswith_append. Qed.

(** The third step does nothing to its own output. *)
Lemma remove_incomplete_sentence_idem (u : string) :
  remove_incomplete_sentence (remove_incomplete_sentence u)
  = remove_incomplete_sentence u.
Proof.
  destruct (remove_incomplete_sentence_cases u) as [H | (kept & dropped & _ & H)].
  - now rewrite H.
  - rewrite H. unfold remove_incomplete_sentence.
    rewrite endswith_any_full_stop. cbn [negb]. now rewrite andb_false_r.
Qed.

(** The third step keeps a stripped text stripped. *)
Lemma remove_incomplete_sentence_stripped (u : string) :
  strip u = u ->
  strip (remove_incomplete_sentence u) = remove_incomplete_sentence u.
Proof.
  intros Hu.
  destruct (remove_incomplete_sentence_cases u) as [H | (kept & dropped & Hk & H)].
  - now rewrite H.
  - rewrite H. apply strip_fix_inv in Hu as [Hhead _].
    apply strip_fix.
    + rewrite Hk in Hhead. now apply (head_ok_append kept (". " ++ dropped)).
    + now apply rstrip_append_char.
Qed.

(** The third step adds no "Answer:". *)
Lemma remove_incomplete_sentence_clean (u : string) :
  contains "Answer:" u = false ->
  contains "Answer:" (remove_incomplete_sentence u) = false.
Proof.
  intros Hu.
  destruct (remove_incomplete_sentence_cases u) as [H | (kept & dropped & Hk & H)].
  - now rewrite H.
  - rewrite H. subst u.
    apply (contains_factor _ "" _ (" " ++ dropped)).
    cbn [append]. rewrite append_assoc. exact Hu.
Qed.

End CleanFacts.

Import PyStr PyStrFacts LLMService CleanFacts.

(** C6 (as stated, refuted): the cleaned form of the truncated three-sentence
    text does not end with "Fact one."; only the last, incomplete sentence is
    dropped, so the text ends with the second sentence. *)
Lemma clean_response_truncated_not_fact_one :
  endswith "Fact one." (_clean_response "Fact one. Fact two. Fact thr") = false.
Proof. vm_compute. reflexivity. Qed.

(** C6 (amended): cleaning "Fact one. Fact two. Fact thr" drops the
    incomplete trailing fragment "Fact thr" and returns
    "Fact one. Fact two.", a text that begins with "Fact one." and ends
    with "Fact two.". *)
Theorem clean_response_truncated :
  _clean_response "Fact one. Fact two. Fact thr" = "Fact one. Fact two."
  /\ startswith "Fact one." (_clean_response "Fact one. Fact two. Fact thr") = true
  /\ endswith "Fact two." (_clean_response "Fact one. Fact two. Fact thr") = true
  /\ contains "Fact thr" (_clean_response "Fact one. Fact two. Fact thr") = false.
Proof. vm_compute. repeat split. Qed.

(** C7: post-processing is idempotent: cleaning a cleaned response returns
    it unchanged, for every raw response. *)
Theorem clean_response_idempotent (s : string) :
  _clean_response (_clean_response s) = _clean_response s.
Proof.
  unfold _clean_response at 1.
  set (u := remove_prompt_fragments (strip s)).
  assert (Hs : strip u = u) by apply remove_prompt_fragments_stripped.
  assert (Hc : contains "Answer:" u = false)
    by apply remove_prompt_fragments_clean.
  change (_clean_response s) with (remove_incomplete_sentence u).
  rewrite remove_incomplete_sentence_stripped by exact Hs.
  unfold remove_prompt_fragments at 1.
  rewrite remove_incomplete_sentence_clean by exact Hc.
  apply remove_incomplete_sentence_idem.
Qed.

(** C10: the cleaned response never contains the generation cue "Answer:",
    for every raw response. *)
Theorem clean_response_no_answer_marker (s : string) :
  contains "Answer:" (_clean_response s) = false.
Proof.
  unfold _clean_response.
  apply remove_incomplete_sentence_clean, remove_prompt_fragments_clean.
Qed.

(** ** Prompt building *)

Module RAGFacts.
Import PyStr PyStrFacts RAGService.

Lemma contains_append_r (t a s : string) :
  contains t s = true -> contains t (a ++ s) = true.
Proof.
  intros H. apply contains_inv in H as (pre & post & ->).
  rewrite <- append_assoc. apply contains_append.
Qed.

Lemma contains_append_l (t s b : string) :
  contains t s = true -> contains t (s ++ b) = true.
Proof.
  intros H. apply contains_inv in H as (pre & post & ->).
  rewrite !append_assoc. apply contains_append.
Qed.

Lemma contains_refl (t : string) : contains t t = true.
Proof.
  rewrite <- (append_empty_r t) at 2.
  apply (contains_append t "" "").
Qed.

(** Every joined item occurs verbatim in the joined string. *)
Lemma contains_join (sep t : string) (l : list string) :
  In t l -> contains t (join sep l) = true.
Proof.
  induction l as [|x l IH]; intros Hin; [destruct Hin|].
  destruct l as [|y l].
  - destruct Hin as [->|[]]. apply contains_refl.
  - rewrite join_cons by discriminate.
    destruct Hin as [->|Hin].
    + apply contains_append_l, contains_refl.
    + now apply contains_append_r, contains_append_r, IH.
Qed.

(** Descend through a chain of concatenations to the operand that holds the
    wanted text. *)
Ltac find_operand H :=
  repeat first [ exact H
               | apply contains_append_l; exact H
               | apply contains_append_r ].

Lemma build_prompt_contains_context (t user_query context : string) :
  contains t context = true ->
  contains t (_build_prompt user_query context) = true.
Proof. intros H. unfold _build_prompt. find_operand H. Qed.

Lemma build_prompt_contains_question (user_query context : string) :
  contains user_query (_build_prompt user_query context) = true.
Proof.
  pose proof (contains_refl user_query) as H.
  unfold _build_prompt. find_operand H.
Qed.

Lemma fallback_prompt_contains_question (user_query : string) :
  contains user_query (_create_fallback_prompt user_query) = true.
Proof.
  pose proof (contains_refl user_query) as H.
  unfold _create_fallback_prompt. find_operand H.
Qed.

(** The matches none of which has a usable text contribute nothing. *)
Lemma context_parts_of_none (matches : list json) :
  Forall (fun m => exists t, match_text m = Ok t /\ json_truthy t = false)
         matches ->
  context_parts_of matches = Ok [].
Proof.
  induction 1 as [|m rest (t & Ht & Hf) _ IH]; [reflexivity|].
  cbn [context_parts_of]. now rewrite Ht, IH, Hf.
Qed.

(** The matches that all carry a non-empty text contribute their texts, in
    order. *)
Lemma context_parts_of_all (matches : list json) (texts : list string) :
  Forall2 (fun m t => match_text m = Ok (JStr t) /\ t <> "") matches texts ->
  context_parts_of matches = Ok (map JStr texts).
Proof.
  induction 1 as [|m t rest ts [Ht Hne] _ IH]; [reflexivity|].
  cbn [context_parts_of map]. rewrite Ht, IH.
  destruct t; [congruence | reflexivity].
Qed.

Lemma str_items_from_map (i : Z) (texts : list string) :
  str_items_from i (map JStr texts) = Ok texts.
Proof.
  revert i. induction texts as [|t ts IH]; intros i; [reflexivity|].
  cbn [map str_items_from]. now rewrite IH.
Qed.

Lemma str_items_map (texts : list string) : str_items (map JStr texts) = Ok texts.
Proof. apply str_items_from_map. Qed.

(** What [get_final_prompt_for_llm] returns once the index is there and
    both remote calls succeed. *)
Lemma get_final_prompt_for_llm_retrieved
    (env : Env) (user_query : string) (st : State) (v : Vector)
    (response : option (list json)) (parts : list json) :
  index env = true ->
  embed_content env user_query = Ok v ->
  index_query env v = Ok response ->
  context_parts_of (match response with Some l => l | None => [] end)
  = Ok parts ->
  fst (get_final_prompt_for_llm env user_query st)
  = match parts with
    | [] => Ok (_create_fallback_prompt user_query, "")
    | _ :: _ =>
        match str_items parts with
        | Ok texts =>
            Ok (_build_prompt user_query
                  (join (nl ++ nl ++ "---" ++ nl ++ nl) texts),
                join (nl ++ nl) texts)
        | Raise e =>
            Raise ("Failed to retrieve context and build prompt: " ++ e)
        end
    end.
Proof.
  intros Hi He Hq Hp.
  unfold get_final_prompt_for_llm, bind, try_except, emit, lift, ret, raise.
  rewrite Hi, He, Hq. cbn [negb fst].
  destruct (match response with Some l => l | None => [] end) as [|m ms] eqn:Em.
  - cbn in Hp. injection Hp as <-. reflexivity.
  - rewrite Hp. destruct parts as [|p ps]; [reflexivity|].
    destruct (str_items (p :: ps)); reflexivity.
Qed.

End RAGFacts.

Import Observe Samples RAGService RAGFacts.

(** C4 (as stated, refuted): with two passages the returned source context
    is not the passage texts joined by a newline: the code joins them with
    two newlines, a blank line between passages. *)
Lemma source_context_not_newline_joined :
  exists final_prompt source_context,
    fst (get_final_prompt_for_llm (healthy two_passages) "What is EPF?" fresh)
    = Ok (final_prompt, source_context)
    /\ source_context <> join nl ["EPF is a fund."; "See Section 69."]
    /\ source_context = "EPF is a fund." ++ nl ++ nl ++ "See Section 69.".
Proof.
  eexists. eexists. split; [vm_compute; reflexivity|].
  split; [vm_compute; discriminate | vm_compute; reflexivity].
Qed.

(** C4 (amended): for every non-empty list of retrieved passages whose
    metadata text fields are non-empty, the returned source context equals
    the passage texts joined in input order by a blank line (two newline
    characters), and the returned final prompt contains every passage text
    verbatim. *)
Theorem source_context_blank_line_joined
    (env : Env) (user_query : string) (st : State) (v : Vector)
    (matches : list json) (texts : list string) :
  index env = true ->
  embed_content env user_query = Ok v ->
  index_query env v = Ok (Some matches) ->
  matches <> [] ->
  Forall2 (fun m t => match_text m = Ok (JStr t) /\ t <> "") matches texts ->
  exists final_prompt,
    fst (get_final_prompt_for_llm env user_query st)
    = Ok (final_prompt, join (nl ++ nl) texts)
    /\ forall t, In t texts -> contains t final_prompt = true.
Proof.
  intros Hi He Hq Hne Hall.
  exists (_build_prompt user_query (join (nl ++ nl ++ "---" ++ nl ++ nl) texts)).
  split.
  - rewrite (get_final_prompt_for_llm_retrieved env user_query st v
               (Some matches) (map JStr texts) Hi He Hq)
      by now apply context_parts_of_all.
    destruct Hall as [|m t ms ts _ _]; [congruence|].
    now rewrite str_items_map.
  - intros t Hin. now apply build_prompt_contains_context, contains_join.
Qed.

Lemma source_context_blank_line_joined_witness :
  exists final_prompt,
    fst (get_final_prompt_for_llm (healthy two_passages) "What is EPF?" fresh)
    = Ok (final_prompt,
          join (nl ++ nl) ["EPF is a fund."; "See Section 69."])
    /\ forall t, In t ["EPF is a fund."; "See Section 69."] ->
                 contains t final_prompt = true.
Proof.
  apply (source_context_blank_line_joined (healthy two_passages)
           "What is EPF?" fresh [(1 # 2)%Q; (1 # 4)%Q] two_passages).
  - reflexivity.
  - reflexivity.
  - reflexivity.
  - discriminate.
  - repeat constructor; discriminate.
Defined.

(** C5: when retrieval yields no match, or no match whose metadata carries
    a text, prompt building yields the fallback prompt, which contains the
    literal question, together with an empty source context.  This holds
    for every question, the non-empty trimmed ones the endpoint admits
    among them. *)
Theorem fallback_prompt_without_context
    (env : Env) (user_query : string) (st : State) (v : Vector)
    (response : option (list json)) :
  index env = true ->
  embed_content env user_query = Ok v ->
  index_query env v = Ok response ->
  Forall (fun m => exists t, match_text m = Ok t /\ json_truthy t = false)
         (match response with Some l => l | None => [] end) ->
  fst (get_final_prompt_for_llm env user_query st)
  = Ok (_create_fallback_prompt user_query, "")
  /\ contains user_query (_create_fallback_prompt user_query) = true.
Proof.
  intros Hi He Hq Hnone. split.
  - now rewrite (get_final_prompt_for_llm_retrieved env user_query st v
                   response [] Hi He Hq (context_parts_of_none _ Hnone)).
  - apply fallback_prompt_contains_question.
Qed.

Lemma fallback_prompt_without_context_witness :
  fst (get_final_prompt_for_llm (healthy [bare_match]) "What is EPF?" fresh)
  = Ok (_create_fallback_prompt "What is EPF?", "")
  /\ contains "What is EPF?" (_create_fallback_prompt "What is EPF?") = true.
Proof.
  apply (fallback_prompt_without_context (healthy [bare_match])
           "What is EPF?" fresh [(1 # 2)%Q; (1 # 4)%Q] (Some [bare_match])).
  - reflexivity.
  - reflexivity.
  - reflexivity.
  - constructor; [|constructor]. exists JNull. split; reflexivity.
Defined.

(** ** The orchestrator *)

Module ChatFacts.
Import PyStr ApiModels Observe Main.
Local Open Scope list_scope.

Lemma model_calls_app (a b : list Event) :
  model_calls (a ++ b) = model_calls a ++ model_calls b.
Proof. apply flat_map_app. Qed.

Lemma save_calls_app (a b : list Event) :
  save_calls (a ++ b) = save_calls a ++ save_calls b.
Proof. apply flat_map_app. Qed.

Lemma silent_nil : silent [].
Proof. split; reflexivity. Qed.

Lemma silent_app (a b : list Event) : silent a -> silent b -> silent (a ++ b).
Proof.
  intros [Ha1 Ha2] [Hb1 Hb2]. split.
  - now rewrite model_calls_app, Ha1, Hb1.
  - now rewrite save_calls_app, Ha2, Hb2.
Qed.

Create HintDb chat.
#[local] Hint Resolve silent_nil silent_app : chat.

(** *** Traces of the monad's operations *)

Lemma appends_ret {A : Type} (a : A) : appends (ret a) silent.
Proof. intros st. exists []. cbn. now rewrite app_nil_r; auto with chat. Qed.

Lemma appends_raise {A : Type} (msg : string) : appends (@raise A msg) silent.
Proof. intros st. exists []. cbn. now rewrite app_nil_r; auto with chat. Qed.

Lemma appends_lift {A : Type} (r : result A) : appends (lift r) silent.
Proof. intros st. exists []. cbn. now rewrite app_nil_r; auto with chat. Qed.

Lemma appends_emit (ev : Event) : silent [ev] -> appends (emit ev) silent.
Proof. intros H st. now exists [ev]. Qed.

Lemma appends_table_append (row : ChatData) : appends (table_append row) silent.
Proof. intros st. exists []. cbn. now rewrite app_nil_r; auto with chat. Qed.

Lemma appends_bind {A B : Type} (c : M A) (k : A -> M B) :
  appends c silent -> (forall a, appends (k a) silent) ->
  appends (bind c k) silent.
Proof.
  intros Hc Hk st. unfold bind.
  destruct (Hc st) as (e1 & H1 & S1).
  destruct (c st) as [[a|msg] st1]; cbn [snd] in *.
  - destruct (Hk a st1) as (e2 & H2 & S2).
    exists (e1 ++ e2). rewrite H2, H1, app_assoc. auto with chat.
  - now exists e1.
Qed.

Lemma appends_try_except {A : Type} (c : M A) (h : string -> M A) :
  appends c silent -> (forall e, appends (h e) silent) ->
  appends (try_except c h) silent.
Proof.
  intros Hc Hh st. unfold try_except.
  destruct (Hc st) as (e1 & H1 & S1).
  destruct (c st) as [[a|msg] st1]; cbn [snd] in *.
  - now exists e1.
  - destruct (Hh msg st1) as (e2 & H2 & S2).
    exists (e1 ++ e2). rewrite H2, H1, app_assoc. auto with chat.
Qed.

(** A guarded call that announces itself with [ev]: the trace grows by
    [ev] and then by silent events. *)
Lemma announced {A : Type} (ev : Event) (rest : M A) (h : string -> M A)
    (st : State) :
  appends rest silent -> (forall e, appends (h e) silent) ->
  exists evs,
    trace (snd (try_except (bind (emit ev) (fun _ => rest)) h st))
    = trace st ++ ev :: evs /\ silent evs.
Proof.
  intros Hr Hh. unfold try_except, bind, emit.
  set (st0 := {| trace := trace st ++ [ev]; chat_history := chat_history st |}).
  destruct (Hr st0) as (e1 & H1 & S1).
  destruct (rest st0) as [[a|msg] st1]; cbn [snd] in *.
  - exists e1. rewrite H1. cbn. now rewrite <- app_assoc.
  - destruct (Hh msg st1) as (e2 & H2 & S2).
    exists (e1 ++ e2). rewrite H2, H1. cbn.
    rewrite <- !app_assoc. auto with chat.
Qed.

(** A guarded stage with a default never raises. *)
Lemma guarded_total {A : Type} (c : M A) (default : A) (st : State) :
  exists a st', try_except c (fun _ => ret default) st = (Ok a, st').
Proof.
  unfold try_except. destruct (c st) as [[a|msg] st1].
  - now exists a, st1.
  - now exists default, st1.
Qed.

(** *** Outcomes that do not depend on the state *)







(** *** The three guarded stages *)

Ltac silence :=
  repeat first
    [ apply appends_ret | apply appends_raise | apply appends_lift
    | apply appends_table_append
    | apply appends_emit; split; reflexivity
    | apply appends_bind; [|intros ?]
    | apply appends_try_except; [|intros ?]
    | progress cbv zeta
    | match goal with
      | |- appends (if ?b then _ else _) _ => destruct b
      | |- appends (match ?x with _ => _ end) _ => destruct x
      end ].


Lemma get_final_prompt_for_llm_silent (env : Env) (user_query : string) :
  appends (RAGService.get_final_prompt_for_llm env user_query) silent.
Proof. unfold RAGService.get_final_prompt_for_llm. silence. Qed.


Lemma get_response_silent (env : Env) (prompt : string) (n : Z) (t p : Q) :
  appends (LLMService.get_response env prompt n t p) silent.
Proof. unfold LLMService.get_response. silence. Qed.


(** Obtaining a service before calling it. *)
Lemma try_bind_ret {A B : Type} (a : A) (k : A -> M B) (h : string -> M B)
    (st : State) :
  try_except (bind (ret a) k) h st = try_except (k a) h st.
Proof. reflexivity. Qed.

Lemma try_bind_raise {A B : Type} (msg : string) (k : A -> M B)
    (h : string -> M B) (st : State) :
  try_except (bind (raise msg) k) h st = h msg st.
Proof. reflexivity. Qed.

Lemma step_rag_trace (env : Env) (user_query : string) :
  appends (step_rag env user_query) silent.
Proof.
  unfold step_rag, rag_stage, RAGService.get_rag_service. apply appends_try_except.
  - apply appends_bind.
    + destruct (index env); [apply appends_ret | apply appends_raise].
    + intros _. apply get_final_prompt_for_llm_silent.
  - intros e. apply appends_ret.
Qed.

(** The generation step calls the model once when the service is there, and
    not at all when it cannot be obtained. *)
Lemma step_llm_trace (env : Env) (final_prompt : string) (st : State) :
  exists evs,
    trace (snd (step_llm env final_prompt st))
    = trace st
      ++ (if truthy (api_url env)
          then [Call_query_huggingface_model final_prompt] else [])
      ++ evs
    /\ silent evs.
Proof.
  unfold step_llm, llm_stage, LLMService.get_llm_service.
  destruct (truthy (api_url env)).
  - rewrite try_bind_ret. unfold LLMService.query_huggingface_model.
    cbn [LLMService.opt_truthy orb].
    apply announced.
    + apply get_response_silent.
    + intros e. apply appends_ret.
  - rewrite try_bind_raise. exists []. cbn. rewrite app_nil_r. auto with chat.
Qed.

(** The persistence step calls [save_chat_to_db] once when the service is
    there, and not at all when it cannot be obtained. *)
Lemma step_save_trace (env : Env) (current_user : User)
    (user_query response context : string) (st : State) :
  exists evs,
    trace (snd (step_save env current_user user_query response context st))
    = trace st
      ++ (if client env
          then [Call_save_chat_to_db (id current_user) user_query response
                  (Some context)]
          else [])
      ++ evs
    /\ silent evs.
Proof.
  unfold step_save, save_stage, SupabaseService.get_supabase_service.
  destruct (client env).
  - rewrite try_bind_ret. unfold SupabaseService.save_chat_to_db.
    apply announced.
    + silence.
    + intros e. apply appends_ret.
  - rewrite try_bind_raise. exists []. cbn. rewrite app_nil_r. auto with chat.
Qed.

(** No guarded step raises. *)
Lemma step_rag_total (env : Env) (user_query : string) (st : State) :
  exists final_prompt context st1,
    step_rag env user_query st = (Ok (final_prompt, context), st1).
Proof.
  destruct (guarded_total (rag_stage env user_query) (user_query, "") st)
    as ([p c] & st1 & H).
  now exists p, c, st1.
Qed.

Lemma step_llm_total (env : Env) (final_prompt : string) (st : State) :
  exists response st2, step_llm env final_prompt st = (Ok response, st2).
Proof.
  exact (guarded_total (llm_stage env final_prompt) technical_difficulties st).
Qed.

Lemma step_save_total (env : Env) (current_user : User)
    (user_query response context : string) (st : State) :
  exists st3,
    step_save env current_user user_query response context st = (Ok tt, st3).
Proof.
  destruct (guarded_total
              (save_stage env current_user user_query response context) tt st)
    as ([] & st3 & H).
  now exists st3.
Qed.

(** A turn is its three steps in sequence. *)
Lemma chat_steps (env : Env) (current_user : User) (user_query : string)
    (st st1 st2 st3 : State) (final_prompt context response : string) :
  step_rag env user_query st = (Ok (final_prompt, context), st1) ->
  step_llm env final_prompt st1 = (Ok response, st2) ->
  step_save env current_user user_query response context st2 = (Ok tt, st3) ->
  chat env current_user user_query st
  = (Ok {| answer := response;
           response_source_context := Some context;
           success := true;
           error_message := None |}, st3).
Proof.
  intros H1 H2 H3. unfold chat, chat_body, try_except, bind, ret.
  rewrite H1. cbn [fst snd]. rewrite H2, H3. reflexivity.
Qed.

(** One chat turn, stage by stage: no stage raises, the trace grows by the
    silent events of retrieval, the call of the model and the interaction
    write, each made when its service is there, and the response carries
    what the stages produced. *)
Lemma chat_run (env : Env) (current_user : User) (user_query : string)
    (st : State) :
  exists final_prompt context response st1 st' evs1 evs2 evs3,
    step_rag env user_query st = (Ok (final_prompt, context), st1)
    /\ fst (step_llm env final_prompt st1) = Ok response
    /\ chat env current_user user_query st
       = (Ok {| answer := response;
                response_source_context := Some context;
                success := true;
                error_message := None |}, st')
    /\ trace st'
       = trace st ++ evs1
         ++ (if truthy (api_url env)
             then [Call_query_huggingface_model final_prompt] else [])
         ++ evs2
         ++ (if client env
             then [Call_save_chat_to_db (id current_user) user_query response
                     (Some context)]
             else [])
         ++ evs3
    /\ silent evs1 /\ silent evs2 /\ silent evs3.
Proof.
  destruct (step_rag_total env user_query st) as (p & c & st1 & H1).
  destruct (step_llm_total env p st1) as (a & st2 & H2).
  destruct (step_save_total env current_user user_query a c st2) as (st3 & H3).
  destruct (step_rag_trace env user_query st) as (e1 & T1 & S1).
  destruct (step_llm_trace env p st1) as (e2 & T2 & S2).
  destruct (step_save_trace env current_user user_query a c st2)
    as (e3 & T3 & S3).
  rewrite H1 in T1. rewrite H2 in T2. rewrite H3 in T3. cbn [snd] in *.
  exists p, c, a, st1, st3, e1, e2, e3.
  split; [exact H1|].
  split; [now rewrite H2|].
  split; [exact (chat_steps env current_user user_query st st1 st2 st3 p c a H1 H2 H3)|].
  split; [|exact (conj S1 (conj S2 S3))].
  rewrite T3, T2, T1. now rewrite <- !app_assoc.
Qed.





(** The calls one turn adds to the trace. *)
Lemma chat_calls (st st' : State) (evs1 evs2 evs3 : list Event)
    (called saved : bool)
    (final_prompt uid user_query response : string) (context : option string) :
  trace st'
  = trace st ++ evs1
    ++ (if called then [Call_query_huggingface_model final_prompt] else [])
    ++ evs2
    ++ (if saved
        then [Call_save_chat_to_db uid user_query response context] else [])
    ++ evs3 ->
  silent evs1 -> silent evs2 -> silent evs3 ->
  model_calls (trace st')
  = model_calls (trace st) ++ (if called then [final_prompt] else [])
  /\ save_calls (trace st')
     = save_calls (trace st)
       ++ (if saved then [(uid, user_query, response, context)] else []).
Proof.
  intros -> [M1 V1] [M2 V2] [M3 V3]. split.
  - rewrite !model_calls_app, M1, M2, M3.
    destruct called, saved; cbn; now rewrite ?app_nil_r.
  - rewrite !save_calls_app, V1, V2, V3.
    destruct called, saved; cbn; now rewrite ?app_nil_r.
Qed.

End ChatFacts.

Import ApiModels Main ChatFacts.

(** C1: when the retrieval stage raises, be it that the RAG service
    cannot be obtained or that its method fails, the turn still completes
    on the degraded path: the generation client (of an LLM service that is
    there, as the start of the application requires) is called once, with
    the raw user question as prompt, and the response has success = true
    and an empty source context. *)
Theorem chat_retrieval_failure
    (env : Env) (current_user : User) (user_query : string) (st : State)
    (e : string) :
  fst (rag_stage env user_query st) = Raise e ->
  truthy (api_url env) = true ->
  exists response st',
    chat env current_user user_query st = (Ok response, st')
    /\ success response = true
    /\ response_source_context response = Some ""
    /\ model_calls (trace st')
       = (model_calls (trace st) ++ [user_query])%list.
Proof.
  intros Hraise Hllm.
  destruct (chat_run env current_user user_query st)
    as (p & c & a & st1 & st' & e1 & e2 & e3 & H1 & _ & Hchat & T & S1 & S2 & S3).
  assert (Hpc : p = user_query /\ c = "").
  { unfold step_rag, try_except in H1.
    destruct (rag_stage env user_query st) as [[pc|msg] st0];
      cbn [fst] in Hraise; [discriminate|].
    cbn in H1. now injection H1 as <- <- _. }
  destruct Hpc as [-> ->].
  eexists. exists st'. split; [exact Hchat|].
  split; [reflexivity|]. split; [reflexivity|].
  destruct (chat_calls st st' e1 e2 e3 (truthy (api_url env)) (client env)
              user_query (id current_user) user_query a (Some "") T S1 S2 S3)
    as [Hm _].
  now rewrite Hllm in Hm.
Qed.

Lemma chat_retrieval_failure_witness :
  exists response st',
    chat retrieval_down alice "What is EPF?" fresh = (Ok response, st')
    /\ success response = true
    /\ response_source_context response = Some ""
    /\ model_calls (trace st')
       = (model_calls (trace fresh) ++ ["What is EPF?"])%list.
Proof.
  apply (chat_retrieval_failure retrieval_down alice "What is EPF?" fresh
           "Failed to retrieve context and build prompt: 403 API key not valid").
  - vm_compute. reflexivity.
  - reflexivity.
Defined.





(** ** The interaction store *)

Module StoreFacts.
Import PyStr Observe SupabaseService.
Local Open Scope list_scope.

Lemma insert_requests_app (a b : list Event) :
  insert_requests (a ++ b) = insert_requests a ++ insert_requests b.
Proof. apply flat_map_app. Qed.

(** Naive timestamps compare by their instants. *)
Lemma recent_chats_of_naive (bound : datetime) (chats : list ChatData) :
  aware bound = false ->
  Forall (fun chat => aware (created_at chat) = false) chats ->
  recent_chats_of bound chats = Ok (stamped_after (micros bound) chats).
Proof.
  intros Hb. induction 1 as [|chat rest Hc _ IH]; [reflexivity|].
  cbn [recent_chats_of stamped_after filter].
  unfold datetime_gt. rewrite Hc, Hb. cbn [Bool.eqb].
  rewrite IH. reflexivity.
Qed.

(** One offset-aware timestamp makes the comparison, and with it the whole
    statistics call, raise. *)
Lemma recent_chats_of_aware (bound : datetime) (chat : ChatData)
    (rest : list ChatData) :
  aware bound = false -> aware (created_at chat) = true ->
  recent_chats_of bound (chat :: rest)
  = Raise "can't compare offset-naive and offset-aware datetimes".
Proof.
  intros Hb Hc. cbn [recent_chats_of]. unfold datetime_gt.
  now rewrite Hc, Hb.
Qed.

(** The store only ever adds rows: a save leaves the rows it found in
    place, in order, and a statistics call leaves the table as it is. *)
Lemma save_chat_to_db_extends
    (env : Env) (uid user_query response : string) (context : option string)
    (st : State) :
  exists rest,
    chat_history (snd (save_chat_to_db env uid user_query response context st))
    = chat_history st ++ rest.
Proof.
  unfold save_chat_to_db, bind, try_except, emit, table_append, ret, raise.
  destruct (client env); cbn [negb].
  - destruct (insert_fault env _) as [[msg|msg|[|]]|]; cbn [snd chat_history];
      try (now eexists); exists []; now rewrite app_nil_r.
  - exists []. cbn. now rewrite app_nil_r.
Qed.

Lemma get_chat_statistics_keeps_table
    (env : Env) (uid : option string) (st : State) :
  chat_history (snd (get_chat_statistics env uid st)) = chat_history st.
Proof.
  unfold get_chat_statistics, bind, try_except, emit, table_read, lift, ret,
    raise.
  destruct (client env); cbn [negb]; [|reflexivity].
  destruct (select_fault env); [reflexivity|]. cbn [fst snd chat_history].
  destruct (recent_chats_of _ _); reflexivity.
Qed.

End StoreFacts.

Import SupabaseService StoreFacts.

(** C8: the side effect of the append operation is one new record,
    stamped by the store.  When the insert is accepted, [save_chat_to_db]
    sends one insert request and leaves the table with exactly one record
    more, after the records it held, which stay as they were.  The new
    record holds the four values of the caller; its created_at is not
    among them: the operation reads it from its own clock at the call.
    The operations of the store that follow leave the record in place. *)
Theorem save_chat_to_db_appends_one
    (env : Env) (uid user_query response : string) (context : option string)
    (st : State) :
  let row := {| user_id := uid; user_message := user_query;
                bot_response := response; source_context := context;
                created_at := {| micros := utcnow env; aware := false |} |} in
  client env = true ->
  insert_fault env row = None ->
  exists st',
    save_chat_to_db env uid user_query response context st = (Ok tt, st')
    /\ chat_history st' = (chat_history st ++ [row])%list
    /\ insert_requests (trace st')
       = (insert_requests (trace st) ++ [row])%list
    /\ (forall env' uid' user_query' response' context',
          exists rest,
            chat_history
              (snd (save_chat_to_db env' uid' user_query' response' context' st'))
            = (chat_history st ++ row :: rest)%list)
    /\ (forall env' uid',
          chat_history (snd (get_chat_statistics env' uid' st'))
          = (chat_history st ++ [row])%list).
Proof.
  intros row Hc Hf.
  set (st' := {| trace := (trace st
                           ++ [Call_save_chat_to_db uid user_query response context])
                          ++ [TableInsert row];
                 chat_history := chat_history st ++ [row] |}).
  assert (Hsave : save_chat_to_db env uid user_query response context st
                  = (Ok tt, st')).
  { unfold save_chat_to_db, bind, try_except, emit, table_append, raise.
    rewrite Hc. cbn [negb]. fold (datetime_utcnow env).
    change {| user_id := uid; user_message := user_query;
              bot_response := response; source_context := context;
              created_at := datetime_utcnow env |} with row.
    now rewrite Hf. }
  exists st'. split; [exact Hsave|]. split; [reflexivity|]. split.
  { cbn [trace st']. rewrite !insert_requests_app. cbn. now rewrite app_nil_r. }
  split.
  - intros env' uid' q' r' c'.
    destruct (save_chat_to_db_extends env' uid' q' r' c' st') as (rest & Hrest).
    exists rest. rewrite Hrest. cbn [chat_history st'].
    now rewrite <- app_assoc.
  - intros env' uid'. now rewrite get_chat_statistics_keeps_table.
Qed.

Lemma save_chat_to_db_appends_one_witness :
  exists st',
    save_chat_to_db (healthy []) "user-1" "What is EPF?" "EPF is a fund."
      (Some "") (stored [row_at "user-2" (noon - hour)]) = (Ok tt, st')
    /\ chat_history st'
       = (chat_history (stored [row_at "user-2" (noon - hour)])
          ++ [ {| user_id := "user-1"; user_message := "What is EPF?";
                  bot_response := "EPF is a fund."; source_context := Some "";
                  created_at := {| micros := utcnow (healthy []);
                                   aware := false |} |} ])%list
    /\ insert_requests (trace st')
       = (insert_requests (trace (stored [row_at "user-2" (noon - hour)]))
          ++ [ {| user_id := "user-1"; user_message := "What is EPF?";
                  bot_response := "EPF is a fund."; source_context := Some "";
                  created_at := {| micros := utcnow (healthy []);
                                   aware := false |} |} ])%list
    /\ (forall env' uid' user_query' response' context',
          exists rest,
            chat_history
              (snd (save_chat_to_db env' uid' user_query' response' context' st'))
            = (chat_history (stored [row_at "user-2" (noon - hour)])
               ++ {| user_id := "user-1"; user_message := "What is EPF?";
                     bot_response := "EPF is a fund."; source_context := Some "";
                     created_at := {| micros := utcnow (healthy []);
                                      aware := false |} |} :: rest)%list)
    /\ (forall env' uid',
          chat_history (snd (get_chat_statistics env' uid' st'))
          = (chat_history (stored [row_at "user-2" (noon - hour)])
             ++ [ {| user_id := "user-1"; user_message := "What is EPF?";
                     bot_response := "EPF is a fund."; source_context := Some "";
                     created_at := {| micros := utcnow (healthy []);
                                      aware := false |} |} ])%list).
Proof.
  apply (save_chat_to_db_appends_one (healthy []) "user-1" "What is EPF?"
           "EPF is a fund." (Some "") (stored [row_at "user-2" (noon - hour)])).
  - reflexivity.
  - reflexivity.
Defined.

(** C9 (as stated, refuted): the current-day count is not the number of
    records stamped between 00:00 UTC of the current date and now.  A
    record stamped after the call time is counted although it lies outside
    the interval, and a record stamped exactly at 00:00 is not counted
    although it lies inside. *)
Lemma recent_count_not_interval_to_now :
  (exists stats,
      fst (get_chat_statistics (healthy []) (Some "user-1")
             (stored [row_at "user-1" (noon + hour)])) = Ok stats
      /\ recent_chats_24h stats = 1%nat
      /\ List.length (stamped_between (midnight_of noon) noon
                        [row_at "user-1" (noon + hour)]) = 0%nat)
  /\ (exists stats,
         fst (get_chat_statistics (healthy []) (Some "user-1")
                (stored [row_at "user-1" midnight])) = Ok stats
         /\ recent_chats_24h stats = 0%nat
         /\ List.length (stamped_between (midnight_of noon) noon
                           [row_at "user-1" midnight]) = 1%nat).
Proof.
  split; eexists; (split; [vm_compute; reflexivity|]);
    split; vm_compute; reflexivity.
Qed.

(** C9 (amended): over records with offset-naive timestamps, as the append
    operation writes them, the current-day count of a statistics call is
    the number of records in scope stamped strictly later than 00:00 UTC of
    the date of the call; the window is anchored at midnight, is not a
    rolling 24 hours, and has no upper end at the call time. *)
Theorem recent_count_since_midnight
    (env : Env) (uid : option string) (st : State) :
  client env = true ->
  select_fault env = None ->
  Forall (fun chat => aware (created_at chat) = false)
         (scoped uid (chat_history st)) ->
  exists stats,
    fst (get_chat_statistics env uid st) = Ok stats
    /\ recent_chats_24h stats
       = List.length (stamped_after (midnight_of (utcnow env))
                        (scoped uid (chat_history st))).
Proof.
  intros Hc Hs Hnaive.
  unfold get_chat_statistics, bind, try_except, emit, table_read, lift, ret,
    raise.
  rewrite Hc, Hs. cbn [negb fst snd chat_history].
  set (user_filter := match uid with
                      | Some u => if truthy u then Some u else None
                      | None => None
                      end).
  assert (Hscope :
    match user_filter with
    | Some u => filter (fun chat => String.eqb (user_id chat) u) (chat_history st)
    | None => chat_history st
    end = scoped uid (chat_history st)).
  { unfold user_filter, scoped. destruct uid as [u|]; [|reflexivity].
    now destruct (truthy u). }
  rewrite Hscope.
  rewrite (recent_chats_of_naive (replace_midnight (datetime_utcnow env)) _
             eq_refl Hnaive).
  eexists. split; reflexivity.
Qed.

Lemma recent_count_since_midnight_witness :
  exists stats,
    fst (get_chat_statistics (healthy []) (Some "user-1")
           (stored [row_at "user-1" (noon - 13 * hour);
                    row_at "user-1" (noon - 4 * hour);
                    row_at "user-2" (noon - hour)])) = Ok stats
    /\ recent_chats_24h stats
       = List.length
           (stamped_after (midnight_of (utcnow (healthy [])))
              (scoped (Some "user-1")
                 (chat_history
                    (stored [row_at "user-1" (noon - 13 * hour);
                             row_at "user-1" (noon - 4 * hour);
                             row_at "user-2" (noon - hour)])))).
Proof.
  apply (recent_count_since_midnight (healthy []) (Some "user-1")).
  - reflexivity.
  - reflexivity.
  - vm_compute. repeat constructor.
Defined.

(** The window is anchored at midnight: a record written thirteen hours
    before a call made at noon is less than a day old and is not counted. *)
Example recent_count_not_rolling :
  exists stats,
    fst (get_chat_statistics (healthy []) (Some "user-1")
           (stored [row_at "user-1" (noon - 13 * hour);
                    row_at "user-1" (noon - 4 * hour)])) = Ok stats
    /\ recent_chats_24h stats = 1%nat.
Proof. eexists. split; vm_compute; reflexivity. Qed.

(** A table that returns its timestamps with a UTC offset makes the
    statistics call raise. *)
Example statistics_raise_on_aware_timestamp :
  fst (get_chat_statistics (healthy []) None
         (stored [ {| user_id := "user-1"; user_message := "What is EPF?";
                      bot_response := "EPF is a fund.";
                      source_context := None;
                      created_at := {| micros := noon - hour;
                                       aware := true |} |} ]))
  = Raise "Database operation failed: can't compare offset-naive and offset-aware datetimes".
Proof. vm_compute. reflexivity. Qed.

(** ** The pipeline on the sample deployments *)

(** Two passages retrieved: the turn succeeds, the source context is the
    two texts, and one interaction is stored with the cleaned answer. *)
Example turn_with_context :
  exists response st',
    chat (healthy two_passages) alice "What is EPF?" fresh = (Ok response, st')
    /\ success response = true
    /\ answer response = "EPF is a retirement savings scheme."
    /\ response_source_context response
       = Some ("EPF is a fund." ++ nl ++ nl ++ "See Section 69.")
    /\ chat_history st'
       = [ {| user_id := "user-1"; user_message := "What is EPF?";
              bot_response := "EPF is a retirement savings scheme.";
              source_context :=
                Some ("EPF is a fund." ++ nl ++ nl ++ "See Section 69.");
              created_at := {| micros := noon; aware := false |} |} ].
Proof. eexists. eexists. split; [vm_compute; reflexivity|]. repeat split. Qed.

(** The model times out: the apology is returned and stored. *)
Example turn_with_timeout :
  exists response st',
    chat generation_timeout alice "What is EPF?" fresh = (Ok response, st')
    /\ answer response = technical_difficulties
    /\ map bot_response (chat_history st') = [technical_difficulties].
Proof. eexists. eexists. split; [vm_compute; reflexivity|]. repeat split. Qed.

(** The database refuses the insert: the caller gets the same response as
    with a working database, and nothing is stored. *)
Example turn_with_store_down :
  fst (chat store_down alice "What is EPF?" fresh)
  = fst (chat (healthy two_passages) alice "What is EPF?" fresh)
  /\ chat_history (snd (chat store_down alice "What is EPF?" fresh)) = [].
Proof. split; vm_compute; reflexivity. Qed.

(** The store service cannot be constructed: the caller gets the same
    response, and [save_chat_to_db] is not called at all. *)
Example turn_without_store :
  fst (chat store_unbuilt alice "What is EPF?" fresh)
  = fst (chat (healthy two_passages) alice "What is EPF?" fresh)
  /\ save_calls (trace (snd (chat store_unbuilt alice "What is EPF?" fresh))) = []
  /\ chat_history (snd (chat store_unbuilt alice "What is EPF?" fresh)) = [].
Proof. repeat split; vm_compute; reflexivity. Qed.

(** The LLM service cannot be constructed: the model is not called, the
    apology is returned and stored. *)
Example turn_without_model :
  exists response st',
    chat model_unconfigured alice "What is EPF?" fresh = (Ok response, st')
    /\ success response = true
    /\ answer response = technical_difficulties
    /\ model_calls (trace st') = []
    /\ map bot_response (chat_history st') = [technical_difficulties].
Proof. eexists. eexists. split; [vm_compute; reflexivity|]. repeat split. Qed.

(** A question of blanks is rejected at the door; an admitted one is
    trimmed. *)
Example blank_question_rejected :
  ChatRequest "   "
  = Raise "Value error, Question cannot be empty or just whitespace"
  /\ ChatRequest "  What is EPF? " = Ok "What is EPF?".
Proof. split; vm_compute; reflexivity. Qed.

(** Both text-carrying response shapes give the same answer. *)
Example response_shapes_agree :
  LLMService.response_body
    (PostJson (JList [JDict [("generated_text", JStr "Answer: Yes. Partly")]]))
  = LLMService.response_body
      (PostJson (JDict [("generated_text", JStr "Answer: Yes. Partly")]))
  /\ LLMService.response_body
       (PostJson (JDict [("generated_text", JStr "Answer: Yes. Partly")]))
     = inr "Yes.".
Proof. split; vm_compute; reflexivity. Qed.

(* ================================================================== *)
(** * Further properties of the code *)
(* ================================================================== *)

(** ** Request validation and response cleaning *)

Module MoreStrFacts.
Import PyStr PyStrFacts RAGFacts.

Lemma length_append (a b : string) :
  String.length (a ++ b) = (String.length a + String.length b)%nat.
Proof. induction a as [|c a IH]; cbn; [reflexivity | now rewrite IH]. Qed.

Lemma length_lstrip (s : string) : (String.length (lstrip s) <= String.length s)%nat.
Proof.
  destruct (lstrip_factor s) as [w Hw]. rewrite Hw at 2.
  rewrite length_append. lia.
Qed.

Lemma length_rstrip (s : string) : (String.length (rstrip s) <= String.length s)%nat.
Proof.
  destruct (rstrip_factor s) as [w Hw]. rewrite Hw at 2.
  rewrite length_append. lia.
Qed.

Lemma length_strip (s : string) : (String.length (strip s) <= String.length s)%nat.
Proof.
  unfold strip. pose proof (length_rstrip (lstrip s)).
  pose proof (length_lstrip s). lia.
Qed.

Lemma truthy_length (s : string) : truthy s = true <-> (1 <= String.length s)%nat.
Proof. destruct s; cbn; split; intros; try discriminate; lia. Qed.

Lemma truthy_nonempty (s : string) : truthy s = true <-> s <> "".
Proof. destruct s; cbn; split; intros; congruence. Qed.

Lemma contains_trans (a b c : string) :
  contains a b = true -> contains b c = true -> contains a c = true.
Proof.
  intros Hab Hbc.
  apply contains_inv in Hab as (p1 & q1 & ->).
  apply contains_inv in Hbc as (p2 & q2 & ->).
  replace (p2 ++ (p1 ++ a ++ q1) ++ q2) with ((p2 ++ p1) ++ a ++ (q1 ++ q2))
    by now rewrite !append_assoc.
  apply contains_append.
Qed.

Lemma contains_strip (s : string) : contains (strip s) s = true.
Proof.
  destruct (strip_factor s) as (pre & post & H). rewrite H at 2.
  apply contains_append.
Qed.

(** A split with a single piece is a split of a string without the
    separator, and that piece is the string. *)
Lemma split_single (sep s : string) :
  sep <> "" -> (List.length (split sep s) <= 1)%nat ->
  split sep s = [s] /\ contains sep s = false.
Proof.
  intros Hsep Hlen.
  pose proof (join_split sep s Hsep) as Hj.
  pose proof (last_split_from_clean sep 0 s Hsep) as Hc.
  fold (split sep s) in Hc.
  pose proof (split_from_nonempty sep 0 s) as Hne. fold (split sep s) in Hne.
  destruct (split sep s) as [|p [|q l]]; [congruence| |cbn in Hlen; lia].
  cbn in Hj, Hc. subst p. now split.
Qed.

(** The last piece of a split is the end of the string. *)
Lemma last_piece_suffix (sep s : string) :
  sep <> "" -> exists pre, s = pre ++ last_piece (split sep s).
Proof.
  intros Hsep.
  destruct (Nat.le_gt_cases (List.length (split sep s)) 1) as [Hle|Hgt].
  - destruct (split_single sep s Hsep Hle) as [-> _]. now exists "".
  - exists (join sep (but_last (split sep s)) ++ sep).
    rewrite append_assoc, <- join_but_last by exact Hgt.
    symmetry. now apply join_split.
Qed.

End MoreStrFacts.

Import MoreStrFacts.

(** X1: a question the request model admits is the raw question trimmed: it
    is stripped, not empty, at most 1000 characters long, and is admitted
    unchanged when validated again. *)
Theorem chat_request_admits_trimmed (raw question : string) :
  ChatRequest raw = Ok question ->
  question = strip raw
  /\ strip question = question
  /\ question <> ""
  /\ (String.length question <= 1000)%nat
  /\ ChatRequest question = Ok question.
Proof.
  unfold ChatRequest. intros H.
  destruct (1 <=? String.length raw)%nat eqn:Hmin; [|discriminate].
  destruct (String.length raw <=? 1000)%nat eqn:Hmax; [|discriminate].
  cbn [negb] in H.
  destruct (truthy (strip raw)) eqn:Ht; [|discriminate].
  injection H as <-.
  apply Nat.leb_le in Hmax.
  pose proof (length_strip raw) as Hs.
  assert (Hq : (1 <= String.length (strip raw))%nat) by now apply truthy_length.
  split; [reflexivity|]. split; [apply strip_idem|].
  split; [now apply truthy_nonempty|]. split; [lia|].
  rewrite strip_idem, Ht.
  replace (1 <=? String.length (strip raw))%nat with true
    by (symmetry; apply Nat.leb_le; lia).
  replace (String.length (strip raw) <=? 1000)%nat with true
    by (symmetry; apply Nat.leb_le; lia).
  reflexivity.
Qed.

Lemma chat_request_admits_trimmed_witness :
  "What is EPF?" = strip "  What is EPF? "
  /\ strip "What is EPF?" = "What is EPF?"
  /\ "What is EPF?" <> ""
  /\ (String.length "What is EPF?" <= 1000)%nat
  /\ ChatRequest "What is EPF?" = Ok "What is EPF?".
Proof.
  apply (chat_request_admits_trimmed "  What is EPF? " "What is EPF?").
  vm_compute. reflexivity.
Defined.

(** X2: a question made of whitespace only is never admitted, whatever its
    length. *)
Theorem chat_request_rejects_blank (raw : string) :
  strip raw = "" -> exists e, ChatRequest raw = Raise e.
Proof.
  intros H. unfold ChatRequest. rewrite H. cbn [truthy].
  destruct (1 <=? String.length raw)%nat, (String.length raw <=? 1000)%nat;
    eexists; reflexivity.
Qed.

Lemma chat_request_rejects_blank_witness :
  exists e, ChatRequest "   " = Raise e.
Proof. apply (chat_request_rejects_blank "   "). vm_compute. reflexivity. Defined.

(** X3: cleaning never invents text: the cleaned response occurs verbatim,
    as one contiguous part, in the raw response. *)
Theorem clean_response_is_part_of_raw (s : string) :
  contains (_clean_response s) s = true.
Proof.
  unfold _clean_response.
  apply contains_trans with (b := strip s); [|apply contains_strip].
  apply contains_trans with (b := remove_prompt_fragments (strip s)).
  - destruct (remove_incomplete_sentence_cases (remove_prompt_fragments (strip s)))
      as [H | (kept & dropped & Hk & H)].
    + rewrite H. apply contains_refl.
    + rewrite H, Hk.
      replace (kept ++ ". " ++ dropped)
        with ("" ++ (kept ++ ".") ++ (" " ++ dropped))
        by (cbn [append]; now rewrite append_assoc).
      apply contains_append.
  - unfold remove_prompt_fragments.
    destruct (contains "Answer:" (strip s)); [|apply contains_refl].
    apply contains_trans with (b := last_piece (split "Answer:" (strip s)));
      [apply contains_strip|].
    destruct (last_piece_suffix "Answer:" (strip s) sep_answer_nonempty)
      as [pre Hpre].
    rewrite Hpre at 2.
    rewrite <- (append_empty_r (last_piece _)) at 2.
    apply contains_append.
Qed.

(** X4: the cleaned response has no leading or trailing whitespace. *)
Theorem clean_response_stripped (s : string) :
  strip (_clean_response s) = _clean_response s.
Proof.
  unfold _clean_response.
  apply remove_incomplete_sentence_stripped, remove_prompt_fragments_stripped.
Qed.

(** X5: the cleaned response is empty, or ends in a full stop, exclamation
    mark or question mark, or is a single sentence (it holds no ". "). *)
Theorem clean_response_shape (s : string) :
  _clean_response s = ""
  \/ endswith_any ["."; "!"; "?"] (_clean_response s) = true
  \/ contains ". " (_clean_response s) = false.
Proof.
  unfold _clean_response.
  set (u := remove_prompt_fragments (strip s)).
  unfold remove_incomplete_sentence.
  destruct (truthy u) eqn:Ht.
  - destruct (endswith_any ["."; "!"; "?"] u) eqn:He; cbn [andb negb].
    + right. now left.
    + cbv zeta.
      destruct (1 <? List.length (split ". " u))%nat eqn:Hl.
      * right. left. apply endswith_any_full_stop.
      * right. right. apply Nat.ltb_ge in Hl.
        now apply (split_single ". " u sep_sentence_nonempty).
  - cbn [andb]. left. now destruct u.
Qed.

(** ** The generation client *)

Import Requests Lifecycle.

Lemma clean_response_blank (text : string) :
  strip text = "" -> _clean_response text = "".
Proof. intros H. unfold _clean_response. rewrite H. reflexivity. Qed.

(** X6: a generation made of whitespace only is not replaced by the
    placeholder: the client returns the empty string as the answer. *)
Theorem get_response_blank_generation
    (env : Env) (prompt : string) (n : Z) (t p : Q) (st : State)
    (fields : list (string * json)) (rest : list json) (text : string) :
  truthy (api_url env) = true ->
  http_post env (api_url env) (LLMService.bearer (api_token env))
    (LLMService.make_payload prompt n t p)
  = PostJson (JList (JDict fields :: rest)) ->
  assoc "generated_text" fields = Some (JStr text) ->
  text <> "" ->
  strip text = "" ->
  fst (LLMService.get_response env prompt n t p st) = Ok "".
Proof.
  intros Hu Hp Hf Hne Hs.
  unfold LLMService.get_response, bind, emit, ret, raise.
  rewrite Hu, Hp. cbn [negb].
  unfold LLMService.response_body, LLMService.parse_generated_text, json_get.
  rewrite Hf. unfold LLMService.answer_of_generated_text.
  cbn [json_truthy]. apply truthy_nonempty in Hne. rewrite Hne. cbn [negb fst].
  now rewrite clean_response_blank.
Qed.

Lemma get_response_blank_generation_witness :
  fst (LLMService.get_response
         (with_response (healthy [])
            (PostJson (JList [JDict [("generated_text", JStr "  ")]])))
         "Hello" 512 (7 # 10)%Q (95 # 100)%Q fresh) = Ok "".
Proof.
  apply (get_response_blank_generation _ "Hello" 512 (7 # 10)%Q (95 # 100)%Q
           fresh [("generated_text", JStr "  ")] [] "  ").
  - reflexivity.
  - reflexivity.
  - reflexivity.
  - discriminate.
  - vm_compute. reflexivity.
Defined.

(** X7: a response object with an "error" key always surfaces as the one
    generic failure: whatever the error says (model loading, rate limited,
    anything else), the message raised by its own branch is caught by the
    last handler and replaced. *)
Theorem get_response_error_object
    (env : Env) (prompt : string) (n : Z) (t p : Q) (st : State)
    (fields : list (string * json)) (v : json) :
  truthy (api_url env) = true ->
  http_post env (api_url env) (LLMService.bearer (api_token env))
    (LLMService.make_payload prompt n t p)
  = PostJson (JDict fields) ->
  assoc "error" fields = Some v ->
  fst (LLMService.get_response env prompt n t p st)
  = Raise "An unexpected error occurred while processing your request.".
Proof.
  intros Hu Hp Hf.
  unfold LLMService.get_response, bind, emit, ret, raise.
  rewrite Hu, Hp. cbn [negb].
  unfold LLMService.response_body, LLMService.parse_generated_text.
  rewrite Hf.
  destruct v as [| | |m| |]; try reflexivity.
  destruct (contains "is currently loading" (LLMService.lower m));
    [reflexivity|].
  destruct (contains "rate limited" (LLMService.lower m)); reflexivity.
Qed.

Lemma get_response_error_object_witness :
  fst (LLMService.get_response
         (with_response (healthy [])
            (PostJson (JDict [("error", JStr "Model org/epfo-model is currently loading");
                              ("estimated_time", JNum 20)])))
         "Hello" 512 (7 # 10)%Q (95 # 100)%Q fresh)
  = Raise "An unexpected error occurred while processing your request.".
Proof.
  apply (get_response_error_object _ "Hello" 512 (7 # 10)%Q (95 # 100)%Q fresh
           [("error", JStr "Model org/epfo-model is currently loading");
            ("estimated_time", JNum 20)]
           (JStr "Model org/epfo-model is currently loading")).
  - reflexivity.
  - reflexivity.
  - reflexivity.
Defined.

(** X8: the two text-carrying response shapes are read alike: a list whose
    first object carries a generated text and a single object carrying the
    same generated text (and no "error") give the same outcome. *)
Theorem get_response_shapes_agree
    (env : Env) (prompt : string) (n : Z) (t p : Q) (st : State)
    (first single : list (string * json)) (rest : list json) :
  assoc "generated_text" first = assoc "generated_text" single ->
  assoc "error" single = None ->
  fst (LLMService.get_response
         (with_response env (PostJson (JList (JDict first :: rest))))
         prompt n t p st)
  = fst (LLMService.get_response
           (with_response env (PostJson (JDict single))) prompt n t p st).
Proof.
  intros Hg He.
  unfold LLMService.get_response, bind, emit, ret, raise.
  cbn [api_url api_token http_post huggingface_model_url with_response].
  destruct (truthy (api_url env)); [|reflexivity]. cbn [negb].
  unfold LLMService.response_body, LLMService.parse_generated_text, json_get.
  rewrite He, Hg.
  destruct (assoc "generated_text" single); reflexivity.
Qed.

Lemma get_response_shapes_agree_witness :
  fst (LLMService.get_response
         (with_response (healthy [])
            (PostJson (JList [JDict [("generated_text", JStr "Answer: Yes.")]])))
         "Hello" 512 (7 # 10)%Q (95 # 100)%Q fresh)
  = fst (LLMService.get_response
           (with_response (healthy [])
              (PostJson (JDict [("generated_text", JStr "Answer: Yes.")])))
           "Hello" 512 (7 # 10)%Q (95 # 100)%Q fresh).
Proof.
  apply (get_response_shapes_agree (healthy []) "Hello" 512 (7 # 10)%Q
           (95 # 100)%Q fresh).
  - reflexivity.
  - reflexivity.
Defined.

(** X9: the two paths of [query_huggingface_model] disagree on an error
    object: with a token override the one-shot request reads no "error" key
    and returns the placeholder as a successful answer, where the default
    path raises. *)
Theorem override_path_ignores_error_object
    (env : Env) (prompt token : string) (n : Z) (t p : Q) (st : State)
    (fields : list (string * json)) (v : json) :
  truthy (api_url env) = true ->
  truthy token = true ->
  assoc "error" fields = Some v ->
  assoc "generated_text" fields = None ->
  fst (LLMService.query_huggingface_model
         (with_response env (PostJson (JDict fields)))
         prompt (Some token) None n t p st)
  = Ok LLMService.empty_response_placeholder
  /\ fst (LLMService.query_huggingface_model
            (with_response env (PostJson (JDict fields)))
            prompt None None n t p st)
     = Raise "An unexpected error occurred while processing your request.".
Proof.
  intros Hu Ht He Hg. split.
  - unfold LLMService.query_huggingface_model, bind, emit, ret, raise.
    cbn [LLMService.opt_truthy]. rewrite Ht. cbn [orb].
    cbn [http_post with_response].
    unfold LLMService.override_body. rewrite Hg. reflexivity.
  - unfold LLMService.query_huggingface_model, bind, emit.
    cbn [LLMService.opt_truthy orb].
    unfold LLMService.get_response, bind, emit, ret, raise.
    cbn [api_url api_token http_post with_response].
    rewrite Hu. cbn [negb].
    unfold LLMService.response_body, LLMService.parse_generated_text.
    rewrite He.
    destruct v as [| | |m| |]; try reflexivity.
    destruct (contains "is currently loading" (LLMService.lower m));
      [reflexivity|].
    destruct (contains "rate limited" (LLMService.lower m)); reflexivity.
Qed.

Lemma override_path_ignores_error_object_witness :
  fst (LLMService.query_huggingface_model
         (with_response (healthy []) (PostJson (JDict [("error", JStr "rate limited")])))
         "Hello" (Some "hf_other") None 512 (7 # 10)%Q (95 # 100)%Q fresh)
  = Ok LLMService.empty_response_placeholder
  /\ fst (LLMService.query_huggingface_model
            (with_response (healthy []) (PostJson (JDict [("error", JStr "rate limited")])))
            "Hello" None None 512 (7 # 10)%Q (95 # 100)%Q fresh)
     = Raise "An unexpected error occurred while processing your request.".
Proof.
  apply (override_path_ignores_error_object (healthy []) "Hello" "hf_other" 512
           (7 # 10)%Q (95 # 100)%Q fresh [("error", JStr "rate limited")]
           (JStr "rate limited")).
  - reflexivity.
  - reflexivity.
  - reflexivity.
  - reflexivity.
Defined.

Module InitFacts.
Import PyStr PyStrFacts MoreStrFacts.

Lemma split_from_skip (sep pre r : string) :
  split_from sep (String.length pre) (pre ++ r) = split_from sep 0 r.
Proof.
  induction pre as [|c pre IH]; [reflexivity|].
  cbn [String.length append split_from]. exact IH.
Qed.

(** Without an occurrence of the separator the split is the string. *)
Lemma split_none (sep r : string) :
  contains sep r = false -> split_from sep 0 r = [r].
Proof.
  induction r as [|c r IH]; intros H; [reflexivity|].
  cbn [contains] in H. apply orb_false_iff in H as [Hs Hc].
  cbn [split_from]. rewrite Hs, (IH Hc). reflexivity.
Qed.

(** Removing a prefix that does not occur again leaves the rest. *)
Lemma replace_prefix (sep r : string) :
  sep <> "" -> contains sep r = false -> replace sep "" (sep ++ r) = r.
Proof.
  intros Hsep Hc. unfold replace, split.
  destruct sep as [|a sep]; [congruence|].
  cbn [append]. cbn [split_from].
  change (String a (sep ++ r)) with (String a sep ++ r).
  rewrite startswith_append.
  cbn [String.length].
  replace (S (String.length sep) - 1)%nat with (String.length sep) by lia.
  rewrite split_from_skip, (split_none _ _ Hc). reflexivity.
Qed.

End InitFacts.

Import InitFacts.

(** X10: configuring the service with the full inference URL, or with the
    hub URL, of a repository gives the repository id back and an endpoint
    that is the inference URL of that repository. *)
Theorem initialize_client_from_url (repo token : string) :
  repo <> "" ->
  repo <> "your_model_name_here" ->
  contains LLMService.models_prefix repo = false ->
  contains LLMService.hub_prefix repo = false ->
  let configured :=
    Ok {| cfg_model_repo_id := repo;
          cfg_api_token := token;
          cfg_api_url := LLMService.models_prefix ++ repo;
          cfg_authorization := LLMService.bearer token |} in
  _initialize_client (LLMService.models_prefix ++ repo) token = configured
  /\ _initialize_client (LLMService.hub_prefix ++ repo) token = configured.
Proof.
  intros Hne Hph Hm Hh configured.
  assert (Hvalid : negb (truthy repo) || String.eqb repo "your_model_name_here"
                   = false).
  { apply orb_false_iff. split.
    - apply negb_false_iff. now apply truthy_nonempty.
    - now apply String.eqb_neq. }
  split; unfold _initialize_client, LLMService.model_repo_id_of.
  - rewrite startswith_append.
    rewrite replace_prefix by (discriminate || exact Hm).
    now rewrite Hvalid.
  - replace (startswith LLMService.models_prefix (LLMService.hub_prefix ++ repo))
      with false by reflexivity.
    rewrite startswith_append.
    rewrite replace_prefix by (discriminate || exact Hh).
    now rewrite Hvalid.
Qed.

Lemma initialize_client_from_url_witness :
  let configured :=
    Ok {| cfg_model_repo_id := "org/epfo-model";
          cfg_api_token := "hf_token";
          cfg_api_url := LLMService.models_prefix ++ "org/epfo-model";
          cfg_authorization := LLMService.bearer "hf_token" |} in
  _initialize_client (LLMService.models_prefix ++ "org/epfo-model") "hf_token"
  = configured
  /\ _initialize_client (LLMService.hub_prefix ++ "org/epfo-model") "hf_token"
     = configured.
Proof.
  apply (initialize_client_from_url "org/epfo-model" "hf_token").
  - discriminate.
  - discriminate.
  - vm_compute. reflexivity.
  - vm_compute. reflexivity.
Defined.

(** ** Retrieval and prompt building *)

Module MoreRAGFacts.
Import PyStr PyStrFacts MoreStrFacts RAGService RAGFacts.

Lemma endswith_append_r (suf a s : string) :
  endswith suf s = true -> endswith suf (a ++ s) = true.
Proof.
  intros H. induction a as [|c a IH]; [exact H|].
  cbn [append endswith]. rewrite IH. apply orb_true_r.
Qed.

Lemma build_prompt_ends_with_cue (user_query context : string) :
  endswith "Answer:" (_build_prompt user_query context) = true.
Proof. unfold _build_prompt. repeat apply endswith_append_r. reflexivity. Qed.

Lemma fallback_prompt_ends_with_cue (user_query : string) :
  endswith "Answer:" (_create_fallback_prompt user_query) = true.
Proof.
  unfold _create_fallback_prompt. repeat apply endswith_append_r. reflexivity.
Qed.

(** The grounded prompt and the fallback prompt differ, whatever they are
    filled with. *)
Lemma build_prompt_not_fallback (q1 q2 context : string) :
  _build_prompt q1 context <> _create_fallback_prompt q2.
Proof. unfold _build_prompt, _create_fallback_prompt. cbn [append nl]. discriminate. Qed.

Lemma context_parts_of_truthy (matches parts : list json) :
  context_parts_of matches = Ok parts ->
  Forall (fun t => json_truthy t = true) parts.
Proof.
  revert parts. induction matches as [|m ms IH]; intros parts H.
  - injection H as <-. constructor.
  - cbn [context_parts_of] in H.
    destruct (match_text m) as [t|e]; [|discriminate].
    destruct (context_parts_of ms) as [l|e]; [|discriminate].
    injection H as <-. specialize (IH l eq_refl).
    destruct (json_truthy t) eqn:Ht; [constructor|]; assumption.
Qed.

Lemma str_items_from_inv (i : Z) (parts : list json) (texts : list string) :
  str_items_from i parts = Ok texts -> parts = map JStr texts.
Proof.
  revert i texts. induction parts as [|x parts IH]; intros i texts H.
  - injection H as <-. reflexivity.
  - cbn [str_items_from] in H. destruct x; try discriminate.
    destruct (str_items_from (i + 1) parts) as [l|e] eqn:E; [|discriminate].
    injection H as <-. cbn [map]. now rewrite (IH _ l E).
Qed.

Lemma str_items_inv (parts : list json) (texts : list string) :
  str_items parts = Ok texts -> parts = map JStr texts.
Proof. apply str_items_from_inv. Qed.

Lemma join_nonempty (sep : string) (texts : list string) :
  texts <> [] -> Forall (fun t => t <> "") texts -> join sep texts <> "".
Proof.
  intros Hne Hall. destruct Hall as [|t ts Ht _]; [congruence|].
  destruct ts; cbn [join]; [exact Ht|].
  destruct t; [congruence | discriminate].
Qed.

(** Every outcome of [get_final_prompt_for_llm]: a wrapped failure, the
    fallback prompt with an empty context, or the grounded prompt over a
    non-empty list of non-empty texts. *)
Lemma get_final_prompt_for_llm_cases
    (env : Env) (user_query : string) (st : State) :
  (exists e, fst (get_final_prompt_for_llm env user_query st)
             = Raise ("Failed to retrieve context and build prompt: " ++ e))
  \/ fst (get_final_prompt_for_llm env user_query st)
     = Ok (_create_fallback_prompt user_query, "")
  \/ exists texts,
       texts <> [] /\ Forall (fun t => t <> "") texts
       /\ fst (get_final_prompt_for_llm env user_query st)
          = Ok (_build_prompt user_query
                  (join (nl ++ nl ++ "---" ++ nl ++ nl) texts),
                join (nl ++ nl) texts).
Proof.
  unfold get_final_prompt_for_llm, bind, try_except, emit, lift, ret, raise.
  destruct (index env); cbn [negb]; [|left; eexists; reflexivity].
  destruct (embed_content env user_query) as [v|e]; [|left; eexists; reflexivity].
  destruct (index_query env v) as [response|e]; [|left; eexists; reflexivity].
  destruct (match response with Some l => l | None => [] end) as [|m ms];
    [right; left; reflexivity|].
  destruct (context_parts_of (m :: ms)) as [parts|e] eqn:Hp;
    [|left; eexists; reflexivity].
  destruct parts as [|x parts]; [right; left; reflexivity|].
  destruct (str_items (x :: parts)) as [texts|e] eqn:Hs;
    [|left; eexists; reflexivity].
  right. right. exists texts.
  apply context_parts_of_truthy in Hp. apply str_items_inv in Hs.
  split; [destruct texts; [discriminate Hs | discriminate]|].
  split; [|reflexivity].
  rewrite Hs in Hp. clear Hs.
  induction texts as [|t ts IH]; constructor.
  - inversion Hp as [|? ? Ht _]; subst. cbn in Ht. now apply truthy_nonempty.
  - apply IH. now inversion Hp.
Qed.

End MoreRAGFacts.

Import MoreRAGFacts.

(** X11: every prompt the RAG service returns contains the literal user
    question and ends with the generation cue "Answer:", on the grounded
    path and on the fallback path alike. *)
Theorem final_prompt_holds_question_and_cue
    (env : Env) (user_query : string) (st : State)
    (final_prompt source_context : string) :
  fst (get_final_prompt_for_llm env user_query st)
  = Ok (final_prompt, source_context) ->
  contains user_query final_prompt = true
  /\ endswith "Answer:" final_prompt = true.
Proof.
  intros H.
  destruct (get_final_prompt_for_llm_cases env user_query st)
    as [(e & He) | [Hf | (texts & _ & _ & Hg)]].
  - rewrite He in H. discriminate.
  - rewrite Hf in H. injection H as <- <-. split.
    + apply fallback_prompt_contains_question.
    + apply fallback_prompt_ends_with_cue.
  - rewrite Hg in H. injection H as <- <-. split.
    + apply build_prompt_contains_question.
    + apply build_prompt_ends_with_cue.
Qed.

Lemma final_prompt_holds_question_and_cue_witness :
  contains "What is EPF?"
    (_build_prompt "What is EPF?"
       (join (nl ++ nl ++ "---" ++ nl ++ nl) ["EPF is a fund."; "See Section 69."]))
  = true
  /\ endswith "Answer:"
       (_build_prompt "What is EPF?"
          (join (nl ++ nl ++ "---" ++ nl ++ nl) ["EPF is a fund."; "See Section 69."]))
     = true.
Proof.
  apply (final_prompt_holds_question_and_cue (healthy two_passages)
           "What is EPF?" fresh _
           (join (nl ++ nl) ["EPF is a fund."; "See Section 69."])).
  vm_compute. reflexivity.
Defined.

(** X12: the returned source context is empty exactly when the returned
    prompt is the fallback prompt: a grounded prompt always comes with a
    non-empty source context. *)
Theorem source_context_empty_iff_fallback
    (env : Env) (user_query : string) (st : State)
    (final_prompt source_context : string) :
  fst (get_final_prompt_for_llm env user_query st)
  = Ok (final_prompt, source_context) ->
  (source_context = "" <-> final_prompt = _create_fallback_prompt user_query).
Proof.
  intros H.
  destruct (get_final_prompt_for_llm_cases env user_query st)
    as [(e & He) | [Hf | (texts & Hne & Hall & Hg)]].
  - rewrite He in H. discriminate.
  - rewrite Hf in H. injection H as <- <-. now split.
  - rewrite Hg in H. injection H as <- <-. split; intros Habs.
    + now apply join_nonempty in Habs.
    + now apply build_prompt_not_fallback in Habs.
Qed.

Lemma source_context_empty_iff_fallback_witness :
  "" = "" <-> _create_fallback_prompt "What is EPF?"
              = _create_fallback_prompt "What is EPF?".
Proof.
  apply (source_context_empty_iff_fallback (healthy [bare_match])
           "What is EPF?" fresh).
  vm_compute. reflexivity.
Defined.

(** X13: whatever goes wrong inside [get_final_prompt_for_llm] (no index,
    embedding or index query failing, a malformed match), the exception
    that leaves it carries the prefix
    "Failed to retrieve context and build prompt: ". *)
Theorem retrieval_failure_is_wrapped
    (env : Env) (user_query : string) (st : State) (e : string) :
  fst (get_final_prompt_for_llm env user_query st) = Raise e ->
  startswith "Failed to retrieve context and build prompt: " e = true.
Proof.
  intros H.
  destruct (get_final_prompt_for_llm_cases env user_query st)
    as [(e' & He) | [Hf | (texts & _ & _ & Hg)]].
  - rewrite He in H. injection H as <-.
    exact (startswith_append "Failed to retrieve context and build prompt: " e').
  - rewrite Hf in H. discriminate.
  - rewrite Hg in H. discriminate.
Qed.

Lemma retrieval_failure_is_wrapped_witness :
  startswith "Failed to retrieve context and build prompt: "
    "Failed to retrieve context and build prompt: 403 API key not valid"
  = true.
Proof.
  apply (retrieval_failure_is_wrapped retrieval_down "What is EPF?" fresh).
  vm_compute. reflexivity.
Defined.

Module FilterFacts.
Import PyStr RAGService RAGFacts Requests.

Lemma context_parts_of_usable (matches : list json) :
  Forall well_formed_match matches ->
  context_parts_of matches = Ok (map JStr (usable_texts matches)).
Proof.
  induction 1 as [|m ms (t & Ht & Hshape) _ IH]; [reflexivity|].
  cbn [context_parts_of usable_texts]. unfold usable_text.
  rewrite Ht, IH.
  destruct Hshape as [Hf | (s & ->)].
  - rewrite Hf. destruct t; try reflexivity.
    cbn in Hf. now rewrite Hf.
  - cbn [json_truthy]. now destruct (truthy s).
Qed.

(** An item that is not a string stops the join at the first such item,
    which the message names by position and type. *)
Lemma str_items_from_not_str (i : Z) (parts : list json) (v : json) :
  In v parts -> (forall s, v <> JStr s) ->
  exists before bad after,
    parts = (map JStr before ++ bad :: after)%list
    /\ (forall s, bad <> JStr s)
    /\ str_items_from i parts
       = Raise ("sequence item " ++ str_of_int (i + Z.of_nat (List.length before))
                ++ ": expected str instance, " ++ type_name bad ++ " found").
Proof.
  revert i. induction parts as [|x parts IH]; intros i Hin Hv; [destruct Hin|].
  assert (Hx : (exists s, x = JStr s) \/ (forall s, x <> JStr s)).
  { destruct x; try (right; discriminate). left. now eexists. }
  destruct Hx as [(s & ->) | Hx].
  - destruct Hin as [E|Hin]; [now destruct (Hv s)|].
    destruct (IH (i + 1)%Z Hin Hv) as (before & bad & after & -> & Hbad & Hr).
    exists (s :: before), bad, after.
    split; [reflexivity|]. split; [exact Hbad|].
    cbn [str_items_from]. rewrite Hr.
    replace (i + 1 + Z.of_nat (List.length before))%Z
      with (i + Z.of_nat (List.length (s :: before)))%Z
      by (cbn [List.length]; lia).
    reflexivity.
  - exists [], x, parts. split; [reflexivity|]. split; [exact Hx|].
    cbn [List.length Z.of_nat]. rewrite Z.add_0_r.
    destruct x; try reflexivity. now destruct (Hx s).
Qed.

Lemma context_parts_of_keeps (matches parts : list json) (m v : json) :
  context_parts_of matches = Ok parts ->
  In m matches -> match_text m = Ok v -> json_truthy v = true ->
  In v parts.
Proof.
  revert parts. induction matches as [|x ms IH]; intros parts H Hin Hm Hv;
    [destruct Hin|].
  cbn [context_parts_of] in H.
  destruct (match_text x) as [t|e] eqn:Hx; [|discriminate].
  destruct (context_parts_of ms) as [l|e]; [|discriminate].
  injection H as <-.
  destruct Hin as [->|Hin].
  - rewrite Hm in Hx. injection Hx as <-. rewrite Hv. now left.
  - specialize (IH l eq_refl Hin Hm Hv).
    destruct (json_truthy t); [now right | exact IH].
Qed.

End FilterFacts.

Import FilterFacts.

(** X14: retrieval keeps the matches with a usable text and skips the
    others, in the order of the index: the source context is the usable
    texts joined by a blank line, the prompt is built over the same texts,
    and with no usable text at all the fallback prompt is returned. *)
Theorem retrieval_filters_in_order
    (env : Env) (user_query : string) (st : State) (v : Vector)
    (matches : list json) :
  index env = true ->
  embed_content env user_query = Ok v ->
  index_query env v = Ok (Some matches) ->
  Forall well_formed_match matches ->
  fst (get_final_prompt_for_llm env user_query st)
  = match usable_texts matches with
    | [] => Ok (_create_fallback_prompt user_query, "")
    | _ :: _ =>
        Ok (_build_prompt user_query
              (join (nl ++ nl ++ "---" ++ nl ++ nl) (usable_texts matches)),
            join (nl ++ nl) (usable_texts matches))
    end.
Proof.
  intros Hi He Hq Hwf.
  rewrite (get_final_prompt_for_llm_retrieved env user_query st v
             (Some matches) (map JStr (usable_texts matches)) Hi He Hq)
    by now apply context_parts_of_usable.
  destruct (usable_texts matches) as [|t ts] eqn:Hu; [reflexivity|].
  rewrite <- Hu at 1. rewrite str_items_map.
  cbn [map]. now rewrite Hu.
Qed.

Lemma retrieval_filters_in_order_witness :
  fst (get_final_prompt_for_llm
         (healthy [passage "EPF is a fund."; bare_match; passage "See Section 69."])
         "What is EPF?" fresh)
  = match usable_texts
            [passage "EPF is a fund."; bare_match; passage "See Section 69."] with
    | [] => Ok (_create_fallback_prompt "What is EPF?", "")
    | _ :: _ =>
        Ok (_build_prompt "What is EPF?"
              (join (nl ++ nl ++ "---" ++ nl ++ nl)
                 (usable_texts
                    [passage "EPF is a fund."; bare_match;
                     passage "See Section 69."])),
            join (nl ++ nl)
              (usable_texts
                 [passage "EPF is a fund."; bare_match;
                  passage "See Section 69."]))
    end.
Proof.
  apply (retrieval_filters_in_order _ "What is EPF?" fresh
           [(1 # 2)%Q; (1 # 4)%Q]).
  - reflexivity.
  - reflexivity.
  - reflexivity.
  - repeat constructor.
    + exists (JStr "EPF is a fund."). split; [reflexivity|]. right. now eexists.
    + exists JNull. split; [reflexivity|]. now left.
    + exists (JStr "See Section 69."). split; [reflexivity|]. right. now eexists.
Defined.

(** X15: one match whose text is truthy but not a string (a number, a list)
    fails the whole retrieval: no prompt is built from the other passages.
    The join stops at the first kept text that is not a string, and the
    wrapped [TypeError] names it by its position among the kept texts and
    by its type. *)
Theorem retrieval_fails_on_non_string_text
    (env : Env) (user_query : string) (st : State) (v : Vector)
    (matches : list json) (m text : json) :
  index env = true ->
  embed_content env user_query = Ok v ->
  index_query env v = Ok (Some matches) ->
  (forall x, In x matches -> exists t, match_text x = Ok t) ->
  In m matches ->
  match_text m = Ok text ->
  json_truthy text = true ->
  (forall s, text <> JStr s) ->
  exists before bad after,
    context_parts_of matches = Ok (map JStr before ++ bad :: after)%list
    /\ (forall s, bad <> JStr s)
    /\ fst (get_final_prompt_for_llm env user_query st)
       = Raise ("Failed to retrieve context and build prompt: sequence item "
                ++ str_of_int (Z.of_nat (List.length before))
                ++ ": expected str instance, " ++ type_name bad ++ " found").
Proof.
  intros Hi He Hq Hall Hin Hm Ht Hns.
  assert (Hparts : exists parts, context_parts_of matches = Ok parts).
  { clear Hin Hq. induction matches as [|x ms IH]; [now eexists|].
    destruct (Hall x (or_introl eq_refl)) as (t & Hx).
    destruct IH as (l & Hl); [intros y Hy; apply Hall; now right|].
    cbn [context_parts_of]. rewrite Hx, Hl. now eexists. }
  destruct Hparts as (parts & Hp).
  rewrite (get_final_prompt_for_llm_retrieved env user_query st v
             (Some matches) parts Hi He Hq Hp).
  pose proof (context_parts_of_keeps matches parts m text Hp Hin Hm Ht) as Hk.
  destruct (str_items_from_not_str 0 parts text Hk Hns)
    as (before & bad & after & Hsplit & Hbad & Hr).
  exists before, bad, after.
  split; [now rewrite Hp, Hsplit|]. split; [exact Hbad|].
  fold (str_items parts) in Hr. rewrite Hr.
  destruct parts as [|x parts]; [destruct Hk|].
  reflexivity.
Qed.

Lemma retrieval_fails_on_non_string_text_witness :
  exists before bad after,
    context_parts_of
      [passage "EPF is a fund.";
       JDict [("metadata", JDict [("text", JNum 69)])]]
    = Ok (map JStr before ++ bad :: after)%list
    /\ (forall s, bad <> JStr s)
    /\ fst (get_final_prompt_for_llm
              (healthy [passage "EPF is a fund.";
                        JDict [("metadata", JDict [("text", JNum 69)])]])
              "What is EPF?" fresh)
       = Raise ("Failed to retrieve context and build prompt: sequence item "
                ++ str_of_int (Z.of_nat (List.length before))
                ++ ": expected str instance, " ++ type_name bad ++ " found").
Proof.
  apply (retrieval_fails_on_non_string_text _ "What is EPF?" fresh
           [(1 # 2)%Q; (1 # 4)%Q]
           [passage "EPF is a fund.";
            JDict [("metadata", JDict [("text", JNum 69)])]]
           (JDict [("metadata", JDict [("text", JNum 69)])]) (JNum 69)).
  - reflexivity.
  - reflexivity.
  - reflexivity.
  - intros x [<-|[<-|[]]]; eexists; reflexivity.
  - right. now left.
  - reflexivity.
  - reflexivity.
  - discriminate.
Defined.

(** A number after one passage: the message as Python words it. *)
Example non_string_text_message :
  fst (get_final_prompt_for_llm
         (healthy [passage "EPF is a fund.";
                   JDict [("metadata", JDict [("text", JNum 69)])]])
         "What is EPF?" fresh)
  = Raise "Failed to retrieve context and build prompt: sequence item 1: expected str instance, int found".
Proof. vm_compute. reflexivity. Qed.

(** ** The interaction store, further *)

Module MoreStoreFacts.
Import PyStr Observe SupabaseService StoreFacts.
Local Open Scope list_scope.

(** What a statistics call returns when the store answers and the
    timestamps in scope compare. *)
Lemma get_chat_statistics_run
    (env : Env) (uid : option string) (st : State) (recent : list ChatData) :
  client env = true ->
  select_fault env = None ->
  recent_chats_of (replace_midnight (datetime_utcnow env))
    (scoped uid (chat_history st)) = Ok recent ->
  fst (get_chat_statistics env uid st)
  = Ok {| total_chats := List.length (scoped uid (chat_history st));
          total_users :=
            List.length (nodup string_dec
                           (map user_id (scoped uid (chat_history st))));
          recent_chats_24h := List.length recent;
          average_response_length :=
            if (0 <? List.length (scoped uid (chat_history st)))%nat
            then (inject_Z (Z.of_nat (sum_response_lengths
                                        (scoped uid (chat_history st))))
                  / inject_Z (Z.of_nat (List.length
                                          (scoped uid (chat_history st)))))%Q
            else 0%Q |}.
Proof.
  intros Hc Hs Hr.
  unfold get_chat_statistics, bind, try_except, emit, table_read, lift, ret,
    raise.
  rewrite Hc, Hs. cbn [negb fst snd chat_history].
  set (user_filter := match uid with
                      | Some u => if truthy u then Some u else None
                      | None => None
                      end).
  assert (Hscope :
    match user_filter with
    | Some u => filter (fun chat => String.eqb (user_id chat) u) (chat_history st)
    | None => chat_history st
    end = scoped uid (chat_history st)).
  { unfold user_filter, scoped. destruct uid as [u|]; [|reflexivity].
    now destruct (truthy u). }
  rewrite Hscope, Hr. reflexivity.
Qed.

(** Every outcome of a statistics call is decided by the rows in scope. *)
Lemma get_chat_statistics_cases
    (env : Env) (uid : option string) (st : State) :
  (exists e, fst (get_chat_statistics env uid st)
             = Raise ("Database operation failed: " ++ e))
  \/ exists recent,
       client env = true /\ select_fault env = None
       /\ recent_chats_of (replace_midnight (datetime_utcnow env))
            (scoped uid (chat_history st)) = Ok recent.
Proof.
  destruct (client env) eqn:Hc.
  - destruct (select_fault env) as [msg|] eqn:Hs.
    + left. exists msg.
      unfold get_chat_statistics, bind, try_except, emit, raise.
      now rewrite Hc, Hs.
    + destruct (recent_chats_of (replace_midnight (datetime_utcnow env))
                  (scoped uid (chat_history st))) as [recent|e] eqn:Hr.
      * right. now exists recent.
      * left. exists e.
        unfold get_chat_statistics, bind, try_except, emit, table_read, lift,
          ret, raise.
        rewrite Hc, Hs. cbn [negb fst snd chat_history].
        set (user_filter := match uid with
                            | Some u => if truthy u then Some u else None
                            | None => None
                            end).
        assert (Hscope :
          match user_filter with
          | Some u => filter (fun chat => String.eqb (user_id chat) u)
                        (chat_history st)
          | None => chat_history st
          end = scoped uid (chat_history st)).
        { unfold user_filter, scoped. destruct uid as [u|]; [|reflexivity].
          now destruct (truthy u). }
        now rewrite Hscope, Hr.
  - left. exists "Supabase client not initialized".
    unfold get_chat_statistics, bind, try_except, emit, raise.
    now rewrite Hc.
Qed.

Lemma recent_chats_of_length (bound : datetime) (chats recent : list ChatData) :
  recent_chats_of bound chats = Ok recent ->
  (List.length recent <= List.length chats)%nat.
Proof.
  revert recent. induction chats as [|c chats IH]; intros recent H.
  - injection H as <-. cbn. lia.
  - cbn [recent_chats_of] in H.
    destruct (datetime_gt (created_at c) bound) as [keep|e]; [|discriminate].
    destruct (recent_chats_of bound chats) as [l|e]; [|discriminate].
    injection H as <-. specialize (IH l eq_refl).
    destruct keep; cbn [List.length]; lia.
Qed.

Lemma recent_chats_of_raises (bound : datetime) (chats : list ChatData)
    (chat : ChatData) :
  aware bound = false -> In chat chats -> aware (created_at chat) = true ->
  recent_chats_of bound chats
  = Raise "can't compare offset-naive and offset-aware datetimes".
Proof.
  intros Hb Hin Ha. induction chats as [|c chats IH]; [destruct Hin|].
  cbn [recent_chats_of]. unfold datetime_gt at 1. rewrite Hb.
  destruct (aware (created_at c)) eqn:Hc; cbn [Bool.eqb]; [reflexivity|].
  destruct Hin as [->|Hin]; [congruence|].
  now rewrite (IH Hin).
Qed.

Lemma nodup_length_le (l : list string) :
  (List.length (nodup string_dec l) <= List.length l)%nat.
Proof.
  induction l as [|x l IH]; [cbn; lia|].
  cbn [nodup]. destruct (in_dec string_dec x l); cbn [List.length]; lia.
Qed.

Lemma nodup_constant (u : string) (l : list string) :
  Forall (fun x => x = u) l -> (List.length (nodup string_dec l) <= 1)%nat.
Proof.
  induction 1 as [|x l -> Hl IH]; [cbn; lia|].
  cbn [nodup]. destruct (in_dec string_dec u l) as [Hin|Hnot]; [exact IH|].
  destruct Hl as [|y l -> _]; [cbn; lia|].
  exfalso. apply Hnot. now left.
Qed.

Lemma nodup_nonempty (l : list string) :
  l <> [] -> (1 <= List.length (nodup string_dec l))%nat.
Proof.
  induction l as [|x l IH]; [congruence|]. intros _.
  cbn [nodup]. destruct (in_dec string_dec x l) as [Hin|Hnot].
  - apply IH. intros ->. destruct Hin.
  - cbn [List.length]. lia.
Qed.

Lemma scoped_user_ids (u : string) (rows : list ChatData) :
  Forall (fun x => x = u)
    (map user_id (filter (fun chat => String.eqb (user_id chat) u) rows)).
Proof.
  induction rows as [|r rows IH]; [constructor|].
  cbn [filter]. destruct (String.eqb (user_id r) u) eqn:E; [|exact IH].
  cbn [map]. constructor; [now apply String.eqb_eq | exact IH].
Qed.

End MoreStoreFacts.

Import MoreStoreFacts.

(** What the caller of [save_chat_to_db] sees and what the table holds are
    two things: a reply lost after the write raises although the row is
    stored, and a reply without data returns as a success would, whether
    or not the row was written. *)
Example save_reply_lost_after_write :
  save_chat_to_db
    (with_store (healthy []) true (fun _ => Some (Lost "Server disconnected"))
       None)
    "user-1" "What is EPF?" "EPF is a fund." (Some "") fresh
  = (Raise "Database operation failed: Server disconnected",
     {| trace := [Call_save_chat_to_db "user-1" "What is EPF?" "EPF is a fund."
                    (Some "");
                  TableInsert
                    {| user_id := "user-1"; user_message := "What is EPF?";
                       bot_response := "EPF is a fund.";
                       source_context := Some "";
                       created_at := {| micros := noon; aware := false |} |}];
        chat_history :=
          [ {| user_id := "user-1"; user_message := "What is EPF?";
               bot_response := "EPF is a fund."; source_context := Some "";
               created_at := {| micros := noon; aware := false |} |} ] |}).
Proof. vm_compute. reflexivity. Qed.

Example save_reply_without_data :
  fst (save_chat_to_db
         (with_store (healthy []) true (fun _ => Some (NoData false)) None)
         "user-1" "What is EPF?" "EPF is a fund." (Some "") fresh)
  = Ok tt
  /\ chat_history
       (snd (save_chat_to_db
               (with_store (healthy []) true (fun _ => Some (NoData false)) None)
               "user-1" "What is EPF?" "EPF is a fund." (Some "") fresh))
     = [].
Proof. split; vm_compute; reflexivity. Qed.

(** X17: statistics over an empty scope are all zero: no chats, no users,
    nothing recent, and a mean answer length of 0 rather than a division by
    zero. *)
Theorem statistics_of_empty_scope
    (env : Env) (uid : option string) (st : State) :
  client env = true ->
  select_fault env = None ->
  scoped uid (chat_history st) = [] ->
  fst (get_chat_statistics env uid st)
  = Ok {| total_chats := 0; total_users := 0; recent_chats_24h := 0;
          average_response_length := 0%Q |}.
Proof.
  intros Hc Hs He.
  rewrite (get_chat_statistics_run env uid st [] Hc Hs)
    by (rewrite He; reflexivity).
  now rewrite He.
Qed.

Lemma statistics_of_empty_scope_witness :
  fst (get_chat_statistics (healthy []) (Some "user-1")
         (stored [row_at "user-2" (noon - hour)]))
  = Ok {| total_chats := 0; total_users := 0; recent_chats_24h := 0;
          average_response_length := 0%Q |}.
Proof.
  apply (statistics_of_empty_scope (healthy []) (Some "user-1")).
  - reflexivity.
  - reflexivity.
  - reflexivity.
Defined.

(** X18: whatever statistics a call returns, the counts are consistent:
    the total is the number of rows in scope, the recent chats and the
    distinct users are at most the total, there is a user as soon as there
    is a chat, and a call scoped to one user reports at most one user. *)
Theorem statistics_are_consistent
    (env : Env) (uid : option string) (st : State) (stats : Statistics) :
  fst (get_chat_statistics env uid st) = Ok stats ->
  total_chats stats = List.length (scoped uid (chat_history st))
  /\ (recent_chats_24h stats <= total_chats stats)%nat
  /\ (total_users stats <= total_chats stats)%nat
  /\ (total_chats stats = 0%nat <-> total_users stats = 0%nat)
  /\ (forall u, uid = Some u -> u <> "" -> (total_users stats <= 1)%nat).
Proof.
  intros H.
  destruct (get_chat_statistics_cases env uid st)
    as [(e & He) | (recent & Hc & Hs & Hr)].
  { rewrite He in H. discriminate. }
  rewrite (get_chat_statistics_run env uid st recent Hc Hs Hr) in H.
  injection H as <-. cbn [total_chats total_users recent_chats_24h].
  split; [reflexivity|].
  split; [now apply recent_chats_of_length in Hr|].
  split.
  { rewrite <- (length_map user_id (scoped uid (chat_history st))).
    apply nodup_length_le. }
  split.
  { destruct (scoped uid (chat_history st)) as [|r rows] eqn:E.
    - now split.
    - split; [discriminate|]. intros Hz.
      pose proof (nodup_nonempty (map user_id (r :: rows))) as Hn.
      cbn [List.length] in *. rewrite Hz in Hn.
      assert (1 <= 0)%nat by (apply Hn; discriminate). lia. }
  intros u -> Hu. unfold scoped.
  apply truthy_nonempty in Hu. rewrite Hu.
  apply (nodup_constant u), scoped_user_ids.
Qed.

Lemma statistics_are_consistent_witness :
  exists stats,
    fst (get_chat_statistics (healthy []) (Some "user-1")
           (stored [row_at "user-1" (noon - 13 * hour);
                    row_at "user-2" (noon - hour);
                    row_at "user-1" (noon - 4 * hour)])) = Ok stats
    /\ total_chats stats = 2%nat
    /\ (recent_chats_24h stats <= total_chats stats)%nat
    /\ (total_users stats <= 1)%nat.
Proof.
  eexists. split; [vm_compute; reflexivity|].
  destruct (statistics_are_consistent (healthy []) (Some "user-1")
              (stored [row_at "user-1" (noon - 13 * hour);
                       row_at "user-2" (noon - hour);
                       row_at "user-1" (noon - 4 * hour)])
              _ eq_refl) as (Ht & Hr & _ & _ & Hu).
  split; [exact Ht|]. split; [exact Hr|].
  apply (Hu "user-1"); [reflexivity | discriminate].
Defined.

(** X19: one row in scope whose timestamp carries a UTC offset makes the
    whole statistics call raise: the comparison against the naive midnight
    fails, whatever the other rows are. *)
Theorem statistics_raise_on_aware_row
    (env : Env) (uid : option string) (st : State) (chat : ChatData) :
  client env = true ->
  select_fault env = None ->
  In chat (scoped uid (chat_history st)) ->
  aware (created_at chat) = true ->
  fst (get_chat_statistics env uid st)
  = Raise "Database operation failed: can't compare offset-naive and offset-aware datetimes".
Proof.
  intros Hc Hs Hin Ha.
  pose proof (recent_chats_of_raises
                (replace_midnight (datetime_utcnow env))
                (scoped uid (chat_history st)) chat eq_refl Hin Ha) as Hraise.
  unfold get_chat_statistics, bind, try_except, emit, table_read, lift,
    ret, raise.
  rewrite Hc, Hs. cbn [negb fst snd chat_history].
  set (user_filter := match uid with
                      | Some u => if truthy u then Some u else None
                      | None => None
                      end).
  assert (Hscope :
    match user_filter with
    | Some u => filter (fun chat => String.eqb (user_id chat) u)
                  (chat_history st)
    | None => chat_history st
    end = scoped uid (chat_history st)).
  { unfold user_filter, scoped. destruct uid as [u|]; [|reflexivity].
    now destruct (truthy u). }
  now rewrite Hscope, Hraise.
Qed.

Lemma statistics_raise_on_aware_row_witness :
  fst (get_chat_statistics (healthy []) None
         (stored [row_at "user-1" (noon - hour);
                  {| user_id := "user-2"; user_message := "What is EPS?";
                     bot_response := "EPS is a pension scheme.";
                     source_context := None;
                     created_at := {| micros := noon - hour;
                                      aware := true |} |}]))
  = Raise "Database operation failed: can't compare offset-naive and offset-aware datetimes".
Proof.
  apply (statistics_raise_on_aware_row (healthy []) None _
           {| user_id := "user-2"; user_message := "What is EPS?";
              bot_response := "EPS is a pension scheme.";
              source_context := None;
              created_at := {| micros := noon - hour; aware := true |} |}).
  - reflexivity.
  - reflexivity.
  - right. now left.
  - reflexivity.
Defined.

Module ScopeFacts.
Import PyStr Observe SupabaseService StoreFacts MoreStoreFacts.
Local Open Scope list_scope.

(** Statistics scoped to a user are the global statistics of the table
    that holds the rows in scope and no others. *)
Lemma get_chat_statistics_of_scope
    (env : Env) (uid : option string) (st : State) :
  fst (get_chat_statistics env uid st)
  = fst (get_chat_statistics env None (stored (scoped uid (chat_history st)))).
Proof.
  destruct (get_chat_statistics_cases env uid st)
    as [(e & He) | (recent & Hc & Hs & Hr)].
  - destruct (client env) eqn:Hc.
    + destruct (select_fault env) as [msg|] eqn:Hs.
      * unfold get_chat_statistics, bind, try_except, emit, raise.
        now rewrite Hc, Hs.
      * destruct (recent_chats_of (replace_midnight (datetime_utcnow env))
                    (scoped uid (chat_history st))) as [recent|e'] eqn:Hr.
        -- rewrite (get_chat_statistics_run env uid st recent Hc Hs Hr).
           now rewrite (get_chat_statistics_run env None
                          (stored (scoped uid (chat_history st))) recent Hc Hs Hr).
        -- rewrite He.
           unfold get_chat_statistics, bind, try_except, emit, table_read,
             lift, ret, raise in He |- *.
           rewrite Hc, Hs in He |- *.
           cbn [negb fst snd chat_history stored] in He |- *.
           rewrite Hr. cbn [fst].
           set (user_filter := match uid with
                               | Some u => if truthy u then Some u else None
                               | None => None
                               end) in He.
           assert (Hscope :
             match user_filter with
             | Some u => filter (fun chat => String.eqb (user_id chat) u)
                           (chat_history st)
             | None => chat_history st
             end = scoped uid (chat_history st)).
           { unfold user_filter, scoped. destruct uid as [u|]; [|reflexivity].
             now destruct (truthy u). }
           rewrite Hscope, Hr in He. cbn [fst] in He. now rewrite He.
    + unfold get_chat_statistics, bind, try_except, emit, raise.
      now rewrite Hc.
  - rewrite (get_chat_statistics_run env uid st recent Hc Hs Hr).
    now rewrite (get_chat_statistics_run env None
                   (stored (scoped uid (chat_history st))) recent Hc Hs Hr).
Qed.



End ScopeFacts.

Import ScopeFacts.

(** X20: a user's statistics are decided by that user's rows alone: two
    tables that agree on the rows in scope give the same statistics,
    whatever other users have stored. *)
Theorem statistics_depend_on_scope_only
    (env : Env) (uid : option string) (st1 st2 : State) :
  scoped uid (chat_history st1) = scoped uid (chat_history st2) ->
  fst (get_chat_statistics env uid st1)
  = fst (get_chat_statistics env uid st2).
Proof.
  intros H.
  rewrite (get_chat_statistics_of_scope env uid st1).
  rewrite (get_chat_statistics_of_scope env uid st2).
  now rewrite H.
Qed.

Lemma statistics_depend_on_scope_only_witness :
  fst (get_chat_statistics (healthy []) (Some "user-1")
         (stored [row_at "user-1" (noon - hour); row_at "user-2" (noon - hour)]))
  = fst (get_chat_statistics (healthy []) (Some "user-1")
           (stored [row_at "user-3" noon; row_at "user-1" (noon - hour)])).
Proof.
  apply (statistics_depend_on_scope_only (healthy []) (Some "user-1")).
  reflexivity.
Defined.



(** Read on the next day, at 01:00 UTC, the interaction saved at noon is in
    the total and not in the current-day count. *)
Example saved_yesterday_not_recent :
  exists stats,
    fst (get_chat_statistics (at_time (healthy []) (noon + 13 * hour))
           (Some "user-1") (stored [row_at "user-1" noon])) = Ok stats
    /\ total_chats stats = 1%nat /\ recent_chats_24h stats = 0%nat.
Proof. eexists. split; [vm_compute; reflexivity|]. split; reflexivity. Qed.

(** ** The orchestrator, further *)

Module MoreChatFacts.
Import PyStr ApiModels Observe Requests Main ChatFacts CleanFacts.
Local Open Scope list_scope.

Lemma keeps_ret {A : Type} (a : A) : keeps_table (ret a).
Proof. intros st. reflexivity. Qed.

Lemma keeps_raise {A : Type} (msg : string) : keeps_table (@raise A msg).
Proof. intros st. reflexivity. Qed.

Lemma keeps_lift {A : Type} (r : result A) : keeps_table (lift r).
Proof. intros st. reflexivity. Qed.

Lemma keeps_emit (ev : Event) : keeps_table (emit ev).
Proof. intros st. reflexivity. Qed.

Lemma keeps_bind {A B : Type} (c : M A) (k : A -> M B) :
  keeps_table c -> (forall a, keeps_table (k a)) -> keeps_table (bind c k).
Proof.
  intros Hc Hk st. unfold bind. specialize (Hc st).
  destruct (c st) as [[a|msg] st1]; cbn [snd] in *; [|exact Hc].
  now rewrite Hk.
Qed.

Lemma keeps_try_except {A : Type} (c : M A) (h : string -> M A) :
  keeps_table c -> (forall e, keeps_table (h e)) ->
  keeps_table (try_except c h).
Proof.
  intros Hc Hh st. unfold try_except. specialize (Hc st).
  destruct (c st) as [[a|msg] st1]; cbn [snd] in *; [exact Hc|].
  now rewrite Hh.
Qed.

Ltac still :=
  repeat first
    [ apply keeps_ret | apply keeps_raise | apply keeps_lift
    | apply keeps_emit
    | apply keeps_bind; [|intros ?]
    | apply keeps_try_except; [|intros ?]
    | progress cbv zeta
    | match goal with
      | |- keeps_table (if ?b then _ else _) => destruct b
      | |- keeps_table (match ?x with _ => _ end) => destruct x
      end ].

Lemma step_rag_keeps_table (env : Env) (user_query : string) :
  keeps_table (step_rag env user_query).
Proof.
  unfold step_rag, rag_stage, RAGService.get_rag_service,
    RAGService.get_final_prompt_for_llm.
  still.
Qed.

Lemma step_llm_keeps_table (env : Env) (final_prompt : string) :
  keeps_table (step_llm env final_prompt).
Proof.
  unfold step_llm, llm_stage, LLMService.get_llm_service,
    LLMService.query_huggingface_model, LLMService.get_response.
  cbn [LLMService.opt_truthy orb]. still.
Qed.

(** What a successful run of the generation client returns. *)
Lemma response_body_answer (outcome : HttpOutcome) (a : string) :
  LLMService.response_body outcome = inr a ->
  a = LLMService.empty_response_placeholder
  \/ exists s, a = LLMService._clean_response s.
Proof.
  unfold LLMService.response_body. destruct outcome as [m|m|c m|j];
    try discriminate.
  destruct (LLMService.parse_generated_text j) as [e|v]; [discriminate|].
  unfold LLMService.answer_of_generated_text.
  destruct (json_truthy v); cbn [negb].
  - destruct v; try discriminate. intros H. injection H as <-.
    right. now eexists.
  - intros H. injection H as <-. now left.
Qed.

Lemma answer_without_cue (a : string) :
  a = technical_difficulties
  \/ a = LLMService.empty_response_placeholder
  \/ (exists s, a = LLMService._clean_response s) ->
  contains "Answer:" a = false.
Proof.
  intros [-> | [-> | (s & ->)]]; [reflexivity | reflexivity |].
  unfold LLMService._clean_response.
  apply remove_incomplete_sentence_clean, remove_prompt_fragments_clean.
Qed.

Lemma step_llm_answer (env : Env) (final_prompt : string) (st : State)
    (a : string) :
  fst (step_llm env final_prompt st) = Ok a ->
  a = technical_difficulties
  \/ a = LLMService.empty_response_placeholder
  \/ exists s, a = LLMService._clean_response s.
Proof.
  unfold step_llm, llm_stage, LLMService.get_llm_service,
    LLMService.query_huggingface_model, LLMService.get_response,
    try_except, bind, emit, ret, raise.
  cbn [LLMService.opt_truthy orb].
  destruct (truthy (api_url env)); cbn [negb fst].
  - destruct (LLMService.response_body _) as [e|text] eqn:Hb; cbn [fst].
    + intros H. injection H as <-. now left.
    + intros H. injection H as <-. right. now apply response_body_answer in Hb.
  - intros H. injection H as <-. now left.
Qed.

End MoreChatFacts.

Import MoreChatFacts.

(** X22: what is persisted is what is returned: when the store accepts the
    insert, a chat turn leaves the table with exactly one more row, holding
    the caller's id, the question, the answer and the source context of the
    response, stamped with the backend clock. *)
Theorem chat_persists_what_it_returns
    (env : Env) (current_user : User) (user_query : string) (st : State) :
  client env = true ->
  (forall row, insert_fault env row = None) ->
  exists response st',
    chat env current_user user_query st = (Ok response, st')
    /\ chat_history st'
       = (chat_history st
          ++ [ {| user_id := id current_user;
                  user_message := user_query;
                  bot_response := answer response;
                  source_context := response_source_context response;
                  created_at := {| micros := utcnow env; aware := false |} |} ])%list.
Proof.
  intros Hc Hf.
  destruct (step_rag_total env user_query st) as (p & c & st1 & H1).
  destruct (step_llm_total env p st1) as (a & st2 & H2).
  pose proof (step_rag_keeps_table env user_query st) as K1.
  pose proof (step_llm_keeps_table env p st1) as K2.
  rewrite H1 in K1. rewrite H2 in K2. cbn [snd] in K1, K2.
  eexists. eexists. split.
  - apply (chat_steps env current_user user_query st st1 st2 _ p c a H1 H2).
    unfold step_save, save_stage, SupabaseService.get_supabase_service,
      SupabaseService.save_chat_to_db, try_except, bind, emit, table_append,
      ret, raise.
    rewrite Hc, Hf. cbn [negb]. reflexivity.
  - cbn [chat_history answer response_source_context trace].
    now rewrite K2, K1.
Qed.

Lemma chat_persists_what_it_returns_witness :
  exists response st',
    chat (healthy two_passages) alice "What is EPF?" fresh = (Ok response, st')
    /\ chat_history st'
       = (chat_history fresh
          ++ [ {| user_id := id alice;
                  user_message := "What is EPF?";
                  bot_response := answer response;
                  source_context := response_source_context response;
                  created_at := {| micros := utcnow (healthy two_passages);
                                   aware := false |} |} ])%list.
Proof.
  apply (chat_persists_what_it_returns (healthy two_passages) alice
           "What is EPF?" fresh).
  - reflexivity.
  - intros row. reflexivity.
Defined.

(** X23: no answer a chat turn returns contains the generation cue
    "Answer:": the answer is the apology, the placeholder or a cleaned
    generation, whatever the model sent. *)
Theorem chat_answer_has_no_cue
    (env : Env) (current_user : User) (user_query : string) (st : State) :
  exists response,
    fst (chat env current_user user_query st) = Ok response
    /\ contains "Answer:" (answer response) = false.
Proof.
  destruct (chat_run env current_user user_query st)
    as (p & c & a & st1 & st' & _ & _ & _ & _ & H2 & Hchat & _).
  eexists. rewrite Hchat. split; [reflexivity|].
  cbn [answer]. now apply answer_without_cue, (step_llm_answer env p st1).
Qed.

Module PostFacts.
Import PyStr ApiModels Observe Requests Main ChatFacts.
Local Open Scope list_scope.

Lemma posts_app (a b : list Event) : posts (a ++ b) = posts a ++ posts b.
Proof. apply flat_map_app. Qed.

Lemma no_posts_nil : no_posts [].
Proof. reflexivity. Qed.

Lemma no_posts_app (a b : list Event) :
  no_posts a -> no_posts b -> no_posts (a ++ b).
Proof. unfold no_posts. intros Ha Hb. now rewrite posts_app, Ha, Hb. Qed.

Section Appends.

Variable P : list Event -> Prop.
Hypothesis P_nil : P [].
Hypothesis P_app : forall a b, P a -> P b -> P (a ++ b).

Lemma gen_ret {A : Type} (a : A) : appends (ret a) P.
Proof. intros st. exists []. cbn. now rewrite app_nil_r. Qed.

Lemma gen_raise {A : Type} (msg : string) : appends (@raise A msg) P.
Proof. intros st. exists []. cbn. now rewrite app_nil_r. Qed.

Lemma gen_lift {A : Type} (r : result A) : appends (lift r) P.
Proof. intros st. exists []. cbn. now rewrite app_nil_r. Qed.

Lemma gen_table_append (row : ChatData) : appends (table_append row) P.
Proof. intros st. exists []. cbn. now rewrite app_nil_r. Qed.

Lemma gen_emit (ev : Event) : P [ev] -> appends (emit ev) P.
Proof. intros H st. now exists [ev]. Qed.

Lemma gen_bind {A B : Type} (c : M A) (k : A -> M B) :
  appends c P -> (forall a, appends (k a) P) -> appends (bind c k) P.
Proof.
  intros Hc Hk st. unfold bind.
  destruct (Hc st) as (e1 & H1 & S1).
  destruct (c st) as [[a|msg] st1]; cbn [snd] in *.
  - destruct (Hk a st1) as (e2 & H2 & S2).
    exists (e1 ++ e2). rewrite H2, H1, app_assoc. auto.
  - now exists e1.
Qed.

Lemma gen_try_except {A : Type} (c : M A) (h : string -> M A) :
  appends c P -> (forall e, appends (h e) P) -> appends (try_except c h) P.
Proof.
  intros Hc Hh st. unfold try_except.
  destruct (Hc st) as (e1 & H1 & S1).
  destruct (c st) as [[a|msg] st1]; cbn [snd] in *.
  - now exists e1.
  - destruct (Hh msg st1) as (e2 & H2 & S2).
    exists (e1 ++ e2). rewrite H2, H1, app_assoc. auto.
Qed.

End Appends.

Ltac postless :=
  repeat first
    [ apply (gen_ret no_posts no_posts_nil)
    | apply (gen_raise no_posts no_posts_nil)
    | apply (gen_lift no_posts no_posts_nil)
    | apply (gen_table_append no_posts no_posts_nil)
    | apply (gen_emit no_posts); reflexivity
    | apply (gen_bind no_posts no_posts_app); [|intros ?]
    | apply (gen_try_except no_posts no_posts_app); [|intros ?]
    | progress cbv zeta
    | match goal with
      | |- appends (if ?b then _ else _) _ => destruct b
      | |- appends (match ?x with _ => _ end) _ => destruct x
      end ].

Lemma step_rag_no_posts (env : Env) (user_query : string) :
  appends (step_rag env user_query) no_posts.
Proof.
  unfold step_rag, rag_stage, RAGService.get_rag_service,
    RAGService.get_final_prompt_for_llm.
  postless.
Qed.

Lemma step_save_no_posts (env : Env) (current_user : User)
    (user_query response context : string) :
  appends (step_save env current_user user_query response context) no_posts.
Proof.
  unfold step_save, save_stage, SupabaseService.get_supabase_service,
    SupabaseService.save_chat_to_db.
  postless.
Qed.

(** The generation stage sends one request when the endpoint is
    configured, none otherwise. *)
Lemma step_llm_posts (env : Env) (final_prompt : string) (st : State) :
  posts (trace (snd (step_llm env final_prompt st)))
  = posts (trace st)
    ++ (if truthy (api_url env)
        then [(api_url env, LLMService.bearer (api_token env),
               LLMService.make_payload final_prompt 512 (7 # 10)%Q (95 # 100)%Q)]
        else []).
Proof.
  unfold step_llm, llm_stage, LLMService.get_llm_service,
    LLMService.query_huggingface_model, LLMService.get_response,
    try_except, bind, emit, ret, raise.
  cbn [LLMService.opt_truthy orb].
  destruct (truthy (api_url env)); cbn [negb].
  - destruct (LLMService.response_body _); cbn [snd trace];
      rewrite !posts_app; cbn; now rewrite app_nil_r.
  - cbn [snd trace]. now rewrite app_nil_r.
Qed.

End PostFacts.

Import PostFacts.

(** X24: a chat turn sends at most one request to the inference endpoint:
    exactly one when the endpoint is configured, to that endpoint, carrying
    the prompt the retrieval stage resolved and the default decoding
    parameters (512 new tokens, temperature 0.7, top-p 0.95, no echo of the
    input, the five stop sequences), and none otherwise. *)
Theorem chat_posts_at_most_once
    (env : Env) (current_user : User) (user_query : string) (st : State) :
  exists final_prompt context st1,
    step_rag env user_query st = (Ok (final_prompt, context), st1)
    /\ posts (trace (snd (chat env current_user user_query st)))
       = (posts (trace st)
          ++ (if truthy (api_url env)
              then [(api_url env, LLMService.bearer (api_token env),
                     {| inputs := final_prompt;
                        max_new_tokens := 512;
                        temperature := (7 # 10)%Q;
                        top_p := (95 # 100)%Q;
                        return_full_text := false;
                        stop := ["</s>"; "[/INST]"; "Human:"; "Assistant:";
                                 "<|endoftext|>"] |})]
              else []))%list.
Proof.
  destruct (step_rag_total env user_query st) as (p & c & st1 & H1).
  destruct (step_llm_total env p st1) as (a & st2 & H2).
  destruct (step_save_total env current_user user_query a c st2) as (st3 & H3).
  destruct (step_rag_no_posts env user_query st) as (e1 & T1 & N1).
  pose proof (step_llm_posts env p st1) as T2.
  destruct (step_save_no_posts env current_user user_query a c st2)
    as (e3 & T3 & N3).
  rewrite H1 in T1. rewrite H2 in T2. rewrite H3 in T3. cbn [snd] in *.
  exists p, c, st1. split; [exact H1|].
  assert (Hchat : snd (chat env current_user user_query st) = st3).
  { now rewrite (chat_steps env current_user user_query st st1 st2 st3 p c a
                   H1 H2 H3). }
  rewrite Hchat, T3, posts_app, N3, app_nil_r, T2, T1, posts_app, N1, app_nil_r.
  reflexivity.
Qed.

(** ** The health endpoint and the settings *)

Module HealthFacts.
Import PyStr Lifecycle Health MoreStrFacts.

(** The probe of the model is positive exactly on a non-blank answer. *)
Lemma probe_non_blank (text : string) :
  (truthy text && (0 <? String.length (strip text))%nat) = true
  <-> strip text <> "".
Proof.
  split.
  - intros H. apply andb_true_iff in H as [_ H]. apply Nat.ltb_lt in H.
    intros E. rewrite E in H. cbn in H. lia.
  - intros H. apply andb_true_iff. split.
    + destruct text; [now cbn in H | reflexivity].
    + apply Nat.ltb_lt. apply truthy_nonempty, truthy_length in H. lia.
Qed.

(** The three flags the health check computes. *)
Lemma health_check_run (env : Env) (app_version : string) (st : State) :
  fst (health_check env app_version st)
  = Ok {| status :=
            overall_status
              [("supabase",
                client env
                && match select_fault env with None => true | Some _ => false end);
               ("llm",
                truthy (api_url env)
                && match LLMService.response_body
                           (http_post env (api_url env)
                              (LLMService.bearer (api_token env))
                              (LLMService.make_payload
                                 "Hello, this is a test message."
                                 512 (7 # 10)%Q (95 # 100)%Q)) with
                   | inr text =>
                       truthy text && (0 <? String.length (strip text))%nat
                   | inl _ => false
                   end);
               ("rag", index env)];
          version := app_version;
          timestamp := SupabaseService.datetime_utcnow env |}.
Proof.
  unfold health_check, supabase_test_connection, llm_test_connection,
    SupabaseService.get_supabase_service, LLMService.get_llm_service,
    RAGService.get_rag_service,
    LLMService.get_response, try_except, bind, emit, ret, raise.
  destruct (client env); cbn [negb andb];
    destruct (select_fault env); cbn [fst snd];
    destruct (truthy (api_url env)); cbn [negb andb fst snd];
    try destruct (LLMService.response_body _); cbn [fst snd];
    destruct (index env); reflexivity.
Qed.

Lemma overall_status_healthy (b1 b2 b3 : bool) :
  overall_status [("supabase", b1); ("llm", b2); ("rag", b3)] = "healthy"
  <-> b1 = true /\ b2 = true /\ b3 = true.
Proof.
  destruct b1, b2, b3; cbn; split; intros H;
    try discriminate; try (now repeat split); now destruct H as (? & ? & ?).
Qed.

Lemma overall_status_unhealthy (b1 b2 b3 : bool) :
  overall_status [("supabase", b1); ("llm", b2); ("rag", b3)] = "unhealthy"
  <-> b1 = false /\ b2 = false /\ b3 = false.
Proof.
  destruct b1, b2, b3; cbn; split; intros H;
    try discriminate; try (now repeat split); now destruct H as (? & ? & ?).
Qed.

End HealthFacts.

Import Health HealthFacts.

(** X25: the health check never raises, and its verdict follows the three
    probes: "healthy" exactly when the table can be read, the model returns
    a non-blank answer to the test prompt and the RAG service is there;
    "unhealthy" exactly when all three are down; in particular a backend
    whose RAG service is up is never reported unhealthy. *)
Theorem health_check_verdict (env : Env) (app_version : string) (st : State) :
  let store_up := client env = true /\ select_fault env = None in
  let model_up :=
    truthy (api_url env) = true
    /\ exists text,
         LLMService.response_body
           (http_post env (api_url env) (LLMService.bearer (api_token env))
              (LLMService.make_payload "Hello, this is a test message."
                 512 (7 # 10)%Q (95 # 100)%Q)) = inr text
         /\ strip text <> "" in
  let rag_up := index env = true in
  exists report,
    fst (health_check env app_version st) = Ok report
    /\ version report = app_version
    /\ (status report = "healthy" <-> store_up /\ model_up /\ rag_up)
    /\ (status report = "unhealthy" <-> ~ store_up /\ ~ model_up /\ ~ rag_up).
Proof.
  intros store_up model_up rag_up.
  eexists. split; [apply health_check_run|]. split; [reflexivity|].
  cbn [status].
  set (b1 := client env
             && match select_fault env with None => true | Some _ => false end).
  set (b2 := truthy (api_url env) && _).
  assert (H1 : b1 = true <-> store_up).
  { subst b1 store_up. destruct (client env), (select_fault env); cbn;
      split; intros H; try discriminate; try (now split);
      destruct H; congruence. }
  assert (H2 : b2 = true <-> model_up).
  { subst b2 model_up.
    destruct (truthy (api_url env)); cbn [andb].
    - destruct (LLMService.response_body _) as [e|text].
      + split; [discriminate|]. intros (_ & t & Ht & _). discriminate.
      + rewrite probe_non_blank. split.
        * intros H. split; [reflexivity|]. now exists text.
        * intros (_ & t & Ht & Hs). now injection Ht as ->.
    - split; [discriminate|]. now intros [H _]. }
  assert (N1 : b1 = false <-> ~ store_up).
  { rewrite <- H1. destruct b1; split; congruence. }
  assert (N2 : b2 = false <-> ~ model_up).
  { rewrite <- H2. destruct b2; split; congruence. }
  assert (N3 : index env = false <-> ~ rag_up).
  { subst rag_up. destruct (index env); split; congruence. }
  split.
  - rewrite overall_status_healthy, H1, H2. reflexivity.
  - rewrite overall_status_unhealthy, N1, N2, N3. reflexivity.
Qed.

Module CorsFacts.
Import PyStr PyStrFacts MoreStrFacts Config.

Lemma startswith_extend (p s t : string) :
  startswith p s = true -> startswith p (s ++ t) = true.
Proof.
  intros H. apply startswith_inv in H as [r ->].
  rewrite append_assoc. apply startswith_append.
Qed.

Lemma join_head (sep p : string) (ps : list string) :
  exists tail, join sep (p :: ps) = p ++ tail.
Proof.
  destruct ps as [|q ps].
  - exists "". cbn. now rewrite append_empty_r.
  - now exists (sep ++ join sep (q :: ps)).
Qed.

(** No piece of a split holds the separator. *)
Lemma split_from_pieces_clean (sep : string) (k : nat) (s : string) :
  sep <> "" ->
  Forall (fun piece => contains sep piece = false) (split_from sep k s).
Proof.
  intros Hsep. revert k. induction s as [|c s IH]; intros k.
  - cbn [split_from]. destruct k; constructor; try constructor;
      destruct sep; congruence || reflexivity.
  - cbn [split_from]. destruct k as [|k]; [|apply IH].
    destruct (startswith sep (String c s)) eqn:E.
    + constructor; [destruct sep; congruence || reflexivity | apply IH].
    + pose proof (join_split_from sep 0 s Hsep) as Hj. cbn [drop_chars] in Hj.
      specialize (IH 0).
      destruct (split_from sep 0 s) as [|p ps] eqn:Es.
      * now apply split_from_nonempty in Es.
      * apply Forall_cons_iff in IH as [Hp Hps]. constructor; [|exact Hps].
        cbn [contains]. rewrite Hp, orb_false_r.
        destruct (startswith sep (String c p)) eqn:Ep; [|reflexivity].
        destruct (join_head sep p ps) as [tail Ht].
        rewrite <- E, <- Hj, Ht.
        change (String c (p ++ tail)) with (String c p ++ tail).
        symmetry. now apply startswith_extend.
Qed.

Lemma contains_in_strip (sub s : string) :
  contains sub s = false -> contains sub (strip s) = false.
Proof.
  intros H. destruct (strip_factor s) as (pre & post & Hs).
  rewrite Hs in H. now apply contains_factor in H.
Qed.

End CorsFacts.

Import Config CorsFacts.

(** X26: every CORS origin read from the setting is usable as it stands:
    it is not empty, has no surrounding whitespace and holds no comma; an
    empty setting gives the single wildcard. *)
Theorem cors_origins_are_clean (v : string) :
  Forall (fun origin => origin <> "" /\ strip origin = origin
                        /\ contains "," origin = false)
         (parse_cors_origins v)
  /\ parse_cors_origins "" = ["*"].
Proof.
  split; [|reflexivity].
  unfold parse_cors_origins.
  destruct (truthy v); cbn [negb].
  - pose proof (split_from_pieces_clean "," 0 v ltac:(discriminate)) as Hc.
    fold (split "," v) in Hc.
    induction (split "," v) as [|piece pieces IH]; [constructor|].
    apply Forall_cons_iff in Hc as [Hp Hps].
    cbn [filter]. destruct (truthy (strip piece)) eqn:Ht; [|now apply IH].
    cbn [map]. constructor; [|now apply IH].
    split; [now apply truthy_nonempty|].
    split; [apply strip_idem | now apply contains_in_strip].
  - constructor; [|constructor]. repeat split; discriminate.
Qed.

(** ** The requests of the retrieval stage *)

Module RetrievalFacts.
Import PyStr ApiModels Observe Requests Main ChatFacts PostFacts.
Local Open Scope list_scope.

Lemma retrieval_requests_app (a b : list Event) :
  retrieval_requests (a ++ b) = retrieval_requests a ++ retrieval_requests b.
Proof. apply filter_app. Qed.

Lemma no_retrieval_nil : no_retrieval [].
Proof. reflexivity. Qed.

Lemma no_retrieval_app (a b : list Event) :
  no_retrieval a -> no_retrieval b -> no_retrieval (a ++ b).
Proof.
  unfold no_retrieval. intros Ha Hb. now rewrite retrieval_requests_app, Ha, Hb.
Qed.

Ltac quiet :=
  repeat first
    [ apply (gen_ret no_retrieval no_retrieval_nil)
    | apply (gen_raise no_retrieval no_retrieval_nil)
    | apply (gen_lift no_retrieval no_retrieval_nil)
    | apply (gen_table_append no_retrieval no_retrieval_nil)
    | apply (gen_emit no_retrieval); reflexivity
    | apply (gen_bind no_retrieval no_retrieval_app); [|intros ?]
    | apply (gen_try_except no_retrieval no_retrieval_app); [|intros ?]
    | progress cbv zeta
    | match goal with
      | |- appends (if ?b then _ else _) _ => destruct b
      | |- appends (match ?x with _ => _ end) _ => destruct x
      end ].

Lemma step_llm_no_retrieval (env : Env) (final_prompt : string) :
  appends (step_llm env final_prompt) no_retrieval.
Proof.
  unfold step_llm, llm_stage, LLMService.get_llm_service,
    LLMService.query_huggingface_model, LLMService.get_response.
  quiet.
Qed.

Lemma step_save_no_retrieval (env : Env) (current_user : User)
    (user_query response context : string) :
  appends (step_save env current_user user_query response context) no_retrieval.
Proof.
  unfold step_save, save_stage, SupabaseService.get_supabase_service,
    SupabaseService.save_chat_to_db.
  quiet.
Qed.

(** The retrieval stage embeds the question once and, when that gave a
    vector, queries the index once with it. *)
Lemma step_rag_retrieval (env : Env) (user_query : string) (st : State) :
  retrieval_requests (trace (snd (step_rag env user_query st)))
  = retrieval_requests (trace st)
    ++ (if index env
        then EmbedContent "models/text-embedding-004" user_query "RETRIEVAL_QUERY"
             :: match embed_content env user_query with
                | Ok search_embedding => [IndexQuery search_embedding 8 true]
                | Raise _ => []
                end
        else []).
Proof.
  unfold step_rag, rag_stage, RAGService.get_rag_service,
    RAGService.get_final_prompt_for_llm,
    try_except, bind, emit, ret, raise, lift.
  destruct (index env); cbn [negb].
  - destruct (embed_content env user_query) as [v|e]; cbn [snd trace fst].
    + destruct (index_query env v) as [[[|m ms]|]|e]; cbn [snd trace fst];
        try (rewrite !retrieval_requests_app; cbn; now rewrite <- !app_assoc).
      destruct (RAGService.context_parts_of (m :: ms)) as [[|part parts]|e];
        cbn [snd trace fst];
        try (rewrite !retrieval_requests_app; cbn; now rewrite <- !app_assoc).
      destruct (RAGService.str_items (part :: parts)); cbn [snd trace fst];
        rewrite !retrieval_requests_app; cbn; now rewrite <- !app_assoc.
    + rewrite !retrieval_requests_app. cbn. now rewrite <- !app_assoc.
  - cbn [snd trace]. now rewrite app_nil_r.
Qed.

End RetrievalFacts.

Import RetrievalFacts.

(** X27: a chat turn embeds the question at most once and queries the index
    at most once: with an index, one embedding request for the question as
    asked (model text-embedding-004, task RETRIEVAL_QUERY) and, when it gave
    a vector, one query for the 8 nearest matches with their metadata;
    without an index, neither.  The later stages send no such request,
    whatever the outcome of the turn. *)
Theorem chat_retrieves_at_most_once
    (env : Env) (current_user : User) (user_query : string) (st : State) :
  retrieval_requests (trace (snd (chat env current_user user_query st)))
  = (retrieval_requests (trace st)
     ++ (if index env
         then EmbedContent "models/text-embedding-004" user_query "RETRIEVAL_QUERY"
              :: match embed_content env user_query with
                 | Ok search_embedding => [IndexQuery search_embedding 8 true]
                 | Raise _ => []
                 end
         else []))%list.
Proof.
  destruct (step_rag_total env user_query st) as (p & c & st1 & H1).
  destruct (step_llm_total env p st1) as (a & st2 & H2).
  destruct (step_save_total env current_user user_query a c st2) as (st3 & H3).
  pose proof (step_rag_retrieval env user_query st) as T1.
  destruct (step_llm_no_retrieval env p st1) as (e2 & T2 & N2).
  destruct (step_save_no_retrieval env current_user user_query a c st2)
    as (e3 & T3 & N3).
  rewrite H1 in T1. rewrite H2 in T2. rewrite H3 in T3. cbn [snd] in *.
  assert (Hchat : snd (chat env current_user user_query st) = st3).
  { now rewrite (chat_steps env current_user user_query st st1 st2 st3 p c a
                   H1 H2 H3). }
  rewrite Hchat, T3, retrieval_requests_app, N3, app_nil_r,
    T2, retrieval_requests_app, N2, app_nil_r.
  exact T1.
Qed.
